(** * NAryState: a vector of N identical unit vectors over one flat buffer

    Shallow embedding of [drake/systems/n_ary_state.h] (class template
    [drake::NAryState<ScalarType, UnitVector>]) and the properties of its
    bookkeeping: the row/count codec, construction, [append], [get], [set],
    assignment from a flat vector and flattening.

    Conventions (LP64): [std::size_t] is an unsigned 64-bit integer and
    [std::ptrdiff_t] / [Eigen::Index] a signed 64-bit one.  Both are carried
    as [Z]; every conversion and every arithmetic operation of the source is
    written with its wrap-around. *)

From Stdlib Require Import String ZArith List Lia Bool.
From Stdlib Require PrimFloat Uint63.
Import ListNotations.

Set Implicit Arguments.
Local Open Scope Z_scope.

(** ** Machine integers *)

Definition SIZE_MAX : Z := 18446744073709551615.
Definition PTRDIFF_MAX : Z := 9223372036854775807.
Definition PTRDIFF_MIN : Z := -9223372036854775808.

(** Conversion to [std::size_t]: reduction modulo 2^64. *)
Definition to_size_t (z : Z) : Z := z mod (SIZE_MAX + 1).

(** Conversion to [std::ptrdiff_t] (and to [Eigen::Index]): the
    representative of [z] modulo 2^64 in the signed range. *)
Definition to_ptrdiff_t (z : Z) : Z :=
  (z - PTRDIFF_MIN) mod (SIZE_MAX + 1) + PTRDIFF_MIN.

Definition is_size_t (z : Z) : Prop := 0 <= z <= SIZE_MAX.
Definition is_ptrdiff_t (z : Z) : Prop := PTRDIFF_MIN <= z <= PTRDIFF_MAX.

(** ** Exceptions and results *)

Inductive exn : Type :=
| out_of_range (what : string)   (* std::out_of_range *)
| domain_error (what : string)   (* std::domain_error *)
| bad_alloc                      (* the dense vector refuses a row count *)
| assertion_failed.              (* assert / eigen_assert aborts *)

Inductive result (A : Type) : Type :=
| Ok (a : A)
| Throw (e : exn).

Arguments Ok {A} a.
Arguments Throw {A} e.

Definition rbind {A B : Type} (r : result A) (k : A -> result B) : result B :=
  match r with
  | Ok a => k a
  | Throw e => Throw e
  end.

Notation "x <- r ;; k" := (rbind r (fun x => k))
  (at level 61, r at next level, right associativity).

Definition what_get_set : string := "Index i exceeds unit count().".
Definition what_non_multiple : string :=
  "Row count not a multiple of non-null unit.".
Definition what_negative_count : string := "Negative count for non-null unit.".

(** ** The dense column vector *)

Section Dense.

Variable Scalar : Type.

(** Modelled from the spec: the dense numeric column vector
    ([Eigen::Matrix<ScalarType, Eigen::Dynamic, 1>], not part of the
    repository).  A vector is the list of its rows; its row count is an
    [Eigen::Index], so a vector that exists has at most [PTRDIFF_MAX]
    rows. *)
Definition EigenType : Type := list Scalar.

Definition rows (v : EigenType) : Z := Z.of_nat (length v).

Definition Eigen_ok (v : EigenType) : Prop := rows v <= PTRDIFF_MAX.

(** Modelled from the spec: constant-fill construction
    ([EigenType::Constant(rows, 1, value)]).  The row count arrives as an
    [Eigen::Index]; no vector has a negative one, and the request is
    refused. *)
Definition Constant (n : Z) (value : Scalar) : result EigenType :=
  if n <? 0 then Throw bad_alloc else Ok (repeat value (Z.to_nat n)).

(** Modelled from the spec: length-preserving-prefix resize
    ([conservativeResize(rows, Eigen::NoChange)]), refused like [Constant]
    for a negative row count.  The rows added are not initialised; [fresh]
    stands for what they hold. *)
Definition conservativeResize (fresh : Scalar) (v : EigenType) (n : Z)
  : result EigenType :=
  if n <? 0 then Throw bad_alloc
  else Ok (firstn (Z.to_nat n) v ++ repeat fresh (Z.to_nat n - length v)).

(** Eigen's check on [block(startRow, 0, blockRows, 1)]. *)
Definition block_in_range (v : EigenType) (startRow blockRows : Z) : bool :=
  (0 <=? startRow) && (0 <=? blockRows) && (startRow <=? rows v - blockRows).

(** Modelled from the spec: contiguous block read
    ([v.block(startRow, 0, blockRows, 1)] as an rvalue). *)
Definition block (v : EigenType) (startRow blockRows : Z) : result EigenType :=
  if block_in_range v startRow blockRows
  then Ok (firstn (Z.to_nat blockRows) (skipn (Z.to_nat startRow) v))
  else Throw assertion_failed.

(** Modelled from the spec: contiguous block write
    ([v.block(startRow, 0, blockRows, 1) = src]); the two sides must have
    the same number of rows. *)
Definition block_assign (v : EigenType) (startRow blockRows : Z)
           (src : EigenType) : result EigenType :=
  if block_in_range v startRow blockRows && (rows src =? blockRows)
  then Ok (firstn (Z.to_nat startRow) v ++ src
             ++ skipn (Z.to_nat (startRow + blockRows)) v)
  else Throw assertion_failed.

(** [v.bottomRows(n) = src] is the block write at [rows() - n]. *)
Definition bottomRows_assign (v : EigenType) (n : Z) (src : EigenType)
  : result EigenType :=
  block_assign v (rows v - n) n src.

End Dense.

(** ** The unit vector *)

(** Modelled from the spec: the unit vector type ([UnitVector<ScalarType>],
    a model of the Drake::Vector concept declared in [drake/core/Vector.h]):
    default construction, flattening with a length that is the same for
    every value of the type, and construction from a block of that length,
    which flattening reads back. *)
Class UnitVector (Scalar U : Type) : Type := {
  unit_default : U;
  unit_toEigen : U -> EigenType Scalar;
  unit_fromEigen : EigenType Scalar -> U;
  unit_rows_fixed :
    forall u, rows (unit_toEigen u) = rows (unit_toEigen unit_default);
  unit_rows_ok : Eigen_ok (unit_toEigen unit_default);
  unit_to_from :
    forall b, rows b = rows (unit_toEigen unit_default) ->
              unit_toEigen (unit_fromEigen b) = b
}.

(** ** The container *)

Section NAry.

Context {Scalar U : Type} `{UV : UnitVector Scalar U}.

(** [NAN], and what rows hold that a resize added and nothing wrote yet. *)
Variable NaN : Scalar.
Variable fresh : Scalar.

Record NAryState : Type := {
  unit_size_ : Z;                        (* std::size_t *)
  count_ : Z;                            (* std::ptrdiff_t *)
  combined_vector_ : EigenType Scalar
}.

(** [unit_size()]: the size of a default-constructed unit. *)
Definition unit_size : Z := to_size_t (rows (unit_toEigen unit_default)).

Definition unitCountFromRows (rows : Z) : result Z :=
  let us := unit_size in
  if 0 <? us then
    if negb (rows mod us =? 0)
    then Throw (domain_error what_non_multiple)
    else Ok (to_ptrdiff_t (rows / us))
  else Ok (-1).

Definition rowsFromUnitCount (count : Z) : result Z :=
  let us := unit_size in
  if 0 <=? count then Ok (to_size_t (to_size_t count * us))
  else if negb (us =? 0)
       then Throw (domain_error what_negative_count)
       else Ok 0.

(** *** Constructors; members are initialised in declaration order *)

(** [NAryState()] *)
Definition NAryState_default : result NAryState :=
  c <- unitCountFromRows 0 ;;
  Ok {| unit_size_ := unit_size; count_ := c; combined_vector_ := [] |}.

(** [explicit NAryState(std::ptrdiff_t count)] *)
Definition NAryState_count (count : Z) : result NAryState :=
  r <- rowsFromUnitCount count ;;
  c <- unitCountFromRows r ;;
  r' <- rowsFromUnitCount count ;;
  v <- Constant (to_ptrdiff_t r') NaN ;;
  Ok {| unit_size_ := unit_size; count_ := c; combined_vector_ := v |}.

(** [NAryState(const Eigen::MatrixBase<Derived>& initial)] *)
Definition NAryState_initial (initial : EigenType Scalar) : result NAryState :=
  c <- unitCountFromRows (to_size_t (rows initial)) ;;
  Ok {| unit_size_ := unit_size; count_ := c; combined_vector_ := initial |}.

(** *** Const members *)

Definition count (s : NAryState) : Z := count_ s.

Definition size (s : NAryState) : Z := to_size_t (rows (combined_vector_ s)).

Definition toEigen (s : NAryState) : EigenType Scalar := combined_vector_ s.

(** The test of [get] and [set]; [i < count_] compares a [std::size_t]
    with a [std::ptrdiff_t], so [count_] is converted to [std::size_t]. *)
Definition index_ok (s : NAryState) (i : Z) : bool :=
  (unit_size_ s =? 0) || (i <? to_size_t (count_ s)).

Definition row0_of (s : NAryState) (i : Z) : Z := to_size_t (i * unit_size_ s).

Definition get (s : NAryState) (i : Z) : result U :=
  if negb (index_ok s i) then Throw (out_of_range what_get_set)
  else
    let row0 := row0_of s i in
    b <- block (combined_vector_ s) (to_ptrdiff_t row0)
               (to_ptrdiff_t (unit_size_ s)) ;;
    Ok (unit_fromEigen b).

(** *** Mutating members

    A mutating member is a function from the object to the object it
    leaves behind and what it returns or throws: a throw keeps the writes
    made before it. *)

Definition method (A : Type) : Type := NAryState -> NAryState * result A.

Definition mret {A : Type} (a : A) : method A := fun s => (s, Ok a).

Definition mbind {A B : Type} (m : method A) (k : A -> method B) : method B :=
  fun s => match m s with
           | (s', Ok a) => k a s'
           | (s', Throw e) => (s', Throw e)
           end.

Definition lift {A : Type} (r : result A) : method A := fun s => (s, r).

Definition this : method NAryState := fun s => (s, Ok s).

Definition store_count (c : Z) : method unit :=
  fun s => ({| unit_size_ := unit_size_ s; count_ := c;
               combined_vector_ := combined_vector_ s |}, Ok tt).

Definition store_vector (v : EigenType Scalar) : method unit :=
  fun s => ({| unit_size_ := unit_size_ s; count_ := count_ s;
               combined_vector_ := v |}, Ok tt).

(** [assert(b)] of <cassert>: aborts when [b] is false (and is no code at
    all under NDEBUG; the two agree wherever the assertion holds). *)
Definition assert (b : bool) : method unit :=
  lift (if b then Ok tt else Throw assertion_failed).

Notation "x <~ m ;; k" := (mbind m (fun x => k))
  (at level 61, m at next level, right associativity).
Notation "m ;;; k" := (mbind m (fun _ => k))
  (at level 61, right associativity).

(** [++count_] is written with the wrap-around of the conversion; on an
    object that satisfies the invariant below it never wraps, the resize
    being refused first. *)
Definition append (unit : U) : method Datatypes.unit :=
  s <~ this ;;
  if unit_size_ s =? 0 then
    assert (count_ s =? -1) ;;;
    mret tt
  else
    v <~ lift (conservativeResize fresh (combined_vector_ s)
                 (to_ptrdiff_t (to_size_t (rows (combined_vector_ s)
                                           + unit_size_ s)))) ;;
    store_vector v ;;;
    v' <~ lift (bottomRows_assign v (to_ptrdiff_t (unit_size_ s))
                                  (unit_toEigen unit)) ;;
    store_vector v' ;;;
    store_count (to_ptrdiff_t (count_ s + 1)).

Definition set (i : Z) (unit : U) : method Datatypes.unit :=
  s <~ this ;;
  if negb (index_ok s i) then lift (Throw (out_of_range what_get_set))
  else
    let row0 := row0_of s i in
    v <~ lift (block_assign (combined_vector_ s) (to_ptrdiff_t row0)
                            (to_ptrdiff_t (unit_size_ s))
                            (unit_toEigen unit)) ;;
    store_vector v.

(** [operator=(const Eigen::MatrixBase<Derived>& rhs)] *)
Definition assign (rhs : EigenType Scalar) : method unit :=
  c <~ lift (unitCountFromRows (to_size_t (rows rhs))) ;;
  store_count c ;;;
  store_vector rhs.

(** *** The class invariant and the objects a program can hold *)

(** What every object satisfies: the cached unit size is the unit size,
    the buffer is a vector that exists, and the count is tied to the
    buffer (non-null unit) or is the sentinel (null unit). *)
Definition inv (s : NAryState) : Prop :=
  unit_size_ s = unit_size /\
  Eigen_ok (combined_vector_ s) /\
  (0 < unit_size ->
   0 <= count_ s /\ rows (combined_vector_ s) = count_ s * unit_size) /\
  (unit_size = 0 -> count_ s = -1).

(** The objects obtained by a constructor that returns, followed by any
    sequence of calls of the mutating members, whether they return or
    throw.  Arguments are values of their C++ types. *)
Inductive reachable : NAryState -> Prop :=
| reach_default s :
    NAryState_default = Ok s -> reachable s
| reach_count n s :
    is_ptrdiff_t n -> NAryState_count n = Ok s -> reachable s
| reach_initial initial s :
    Eigen_ok initial -> NAryState_initial initial = Ok s -> reachable s
| reach_append s unit :
    reachable s -> reachable (fst (append unit s))
| reach_set s i unit :
    reachable s -> is_size_t i -> reachable (fst (set i unit s))
| reach_assign s rhs :
    reachable s -> Eigen_ok rhs -> reachable (fst (assign rhs s)).

End NAry.

(** ** Instantiations used by the examples *)

(** [ScalarType = double]. *)
Definition double : Type := PrimFloat.float.
Definition NAN : double := PrimFloat.nan.
Definition d (z : Z) : double := PrimFloat.of_uint63 (Uint63.of_Z z).

(** A unit of three rows. *)
Record Vec3 : Type := { v3_x : double; v3_y : double; v3_z : double }.

Definition Vec3_toEigen (u : Vec3) : EigenType double :=
  [v3_x u; v3_y u; v3_z u].

Definition Vec3_fromEigen (b : EigenType double) : Vec3 :=
  {| v3_x := nth 0 b NAN; v3_y := nth 1 b NAN; v3_z := nth 2 b NAN |}.

Definition Vec3_default : Vec3 := Vec3_fromEigen [].

Lemma rows_length_3 (A : Type) (b : list A) :
  rows b = 3 -> exists x y z, b = [x; y; z].
Proof.
  unfold rows.
  destruct b as [|x [|y [|z [|w b]]]]; cbn [length]; intros E; try lia.
  now exists x, y, z.
Qed.

Lemma rows_length_4 (A : Type) (b : list A) :
  rows b = 4 -> exists w x y z, b = [w; x; y; z].
Proof.
  unfold rows.
  destruct b as [|w [|x [|y [|z [|t b]]]]]; cbn [length]; intros E; try lia.
  now exists w, x, y, z.
Qed.

Lemma Vec3_to_from (b : EigenType double) :
  rows b = rows (Vec3_toEigen Vec3_default) ->
  Vec3_toEigen (Vec3_fromEigen b) = b.
Proof.
  intros E. destruct (rows_length_3 b E) as (x & y & z & ->). reflexivity.
Qed.

Lemma Vec3_rows_ok : Eigen_ok (Vec3_toEigen Vec3_default).
Proof. unfold Eigen_ok, rows, PTRDIFF_MAX; cbn; lia. Qed.

#[export] Instance Vec3_UnitVector : UnitVector double Vec3 := {|
  unit_default := Vec3_default;
  unit_toEigen := Vec3_toEigen;
  unit_fromEigen := Vec3_fromEigen;
  unit_rows_fixed := fun _ => eq_refl;
  unit_rows_ok := Vec3_rows_ok;
  unit_to_from := Vec3_to_from
|}.

(** A unit of one row. *)
Record Vec1 : Type := { v1_x : double }.

Definition Vec1_toEigen (u : Vec1) : EigenType double := [v1_x u].

Definition Vec1_fromEigen (b : EigenType double) : Vec1 :=
  {| v1_x := nth 0 b NAN |}.

Definition Vec1_default : Vec1 := Vec1_fromEigen [].

Lemma Vec1_to_from (b : EigenType double) :
  rows b = rows (Vec1_toEigen Vec1_default) ->
  Vec1_toEigen (Vec1_fromEigen b) = b.
Proof.
  intros E. change (rows b = 1) in E. unfold rows in E.
  destruct b as [| x [| y b]]; cbn [length] in E; try lia.
  reflexivity.
Qed.

Lemma Vec1_rows_ok : Eigen_ok (Vec1_toEigen Vec1_default).
Proof. unfold Eigen_ok, rows, PTRDIFF_MAX; cbn; lia. Qed.

#[export] Instance Vec1_UnitVector : UnitVector double Vec1 := {|
  unit_default := Vec1_default;
  unit_toEigen := Vec1_toEigen;
  unit_fromEigen := Vec1_fromEigen;
  unit_rows_fixed := fun _ => eq_refl;
  unit_rows_ok := Vec1_rows_ok;
  unit_to_from := Vec1_to_from
|}.

(** A unit of four rows. *)
Record Vec4 : Type :=
  { v4_w : double; v4_x : double; v4_y : double; v4_z : double }.

Definition Vec4_toEigen (u : Vec4) : EigenType double :=
  [v4_w u; v4_x u; v4_y u; v4_z u].

Definition Vec4_fromEigen (b : EigenType double) : Vec4 :=
  {| v4_w := nth 0 b NAN; v4_x := nth 1 b NAN;
     v4_y := nth 2 b NAN; v4_z := nth 3 b NAN |}.

Definition Vec4_default : Vec4 := Vec4_fromEigen [].

Lemma Vec4_to_from (b : EigenType double) :
  rows b = rows (Vec4_toEigen Vec4_default) ->
  Vec4_toEigen (Vec4_fromEigen b) = b.
Proof.
  intros E. destruct (rows_length_4 b E) as (w & x & y & z & ->). reflexivity.
Qed.

Lemma Vec4_rows_ok : Eigen_ok (Vec4_toEigen Vec4_default).
Proof. unfold Eigen_ok, rows, PTRDIFF_MAX; cbn; lia. Qed.

#[export] Instance Vec4_UnitVector : UnitVector double Vec4 := {|
  unit_default := Vec4_default;
  unit_toEigen := Vec4_toEigen;
  unit_fromEigen := Vec4_fromEigen;
  unit_rows_fixed := fun _ => eq_refl;
  unit_rows_ok := Vec4_rows_ok;
  unit_to_from := Vec4_to_from
|}.

(** The null unit: no rows at all. *)
Inductive NullVector : Type := null_vector.

Definition NullVector_toEigen (u : NullVector) : EigenType double := [].

Definition NullVector_fromEigen (b : EigenType double) : NullVector :=
  null_vector.

Lemma NullVector_to_from (b : EigenType double) :
  rows b = rows (NullVector_toEigen null_vector) ->
  NullVector_toEigen (NullVector_fromEigen b) = b.
Proof. destruct b; [reflexivity | unfold rows; cbn; lia]. Qed.

Lemma NullVector_rows_ok : Eigen_ok (NullVector_toEigen null_vector).
Proof. unfold Eigen_ok, rows, PTRDIFF_MAX; cbn; lia. Qed.

#[export] Instance NullVector_UnitVector : UnitVector double NullVector := {|
  unit_default := null_vector;
  unit_toEigen := NullVector_toEigen;
  unit_fromEigen := NullVector_fromEigen;
  unit_rows_fixed := fun _ => eq_refl;
  unit_rows_ok := NullVector_rows_ok;
  unit_to_from := NullVector_to_from
|}.

(** ** Objects used by the examples *)

Definition vec3 (x y z : Z) : Vec3 :=
  {| v3_x := d x; v3_y := d y; v3_z := d z |}.

(** [NAryState<double, Vec3>()]. *)
Definition empty3 : NAryState (Scalar := double) :=
  {| unit_size_ := 3; count_ := 0; combined_vector_ := [] |}.

(** [empty3] after [append([1,2,3])] and [append([4,5,6])]. *)
Definition two_units : NAryState (Scalar := double) :=
  fst (append NAN (vec3 4 5 6) (fst (append NAN (vec3 1 2 3) empty3))).

(** The units of the specification's example, in order. *)
Definition units_123_456 : list Vec3 := [vec3 1 2 3; vec3 4 5 6].

(** [NAryState<double, NullVector>()]. *)
Definition empty0 : NAryState (Scalar := double) :=
  {| unit_size_ := 0; count_ := -1; combined_vector_ := [] |}.

(** A flat vector of seven rows. *)
Definition seven_rows : EigenType double := map d [1; 2; 3; 4; 5; 6; 7].

(** 2^63 rows, one more than [PTRDIFF_MAX]. *)
Definition two_to_63 : Z := 9223372036854775808.

(** 2^62 units of four rows need 2^64 rows. *)
Definition two_to_62 : Z := 4611686018427387904.

(** ** A caller's loop *)

(** [for (const auto& unit : units) state.append(unit);] *)
Fixpoint append_all {Scalar U : Type} `{UV : UnitVector Scalar U}
         (fresh : Scalar) (units : list U)
  : method (Scalar := Scalar) unit :=
  match units with
  | [] => mret tt
  | u :: rest => mbind (append fresh u) (fun _ => append_all fresh rest)
  end.

(** * Properties *)

(** ** Machine integers *)

Ltac unfold_limits :=
  unfold is_size_t, is_ptrdiff_t, to_size_t, to_ptrdiff_t in *;
  change (SIZE_MAX + 1) with 18446744073709551616 in *;
  unfold SIZE_MAX, PTRDIFF_MIN, PTRDIFF_MAX in *.

Lemma to_size_t_small (z : Z) : is_size_t z -> to_size_t z = z.
Proof. intros Hz. unfold_limits. apply Z.mod_small. lia. Qed.

Lemma to_size_t_range (z : Z) : is_size_t (to_size_t z).
Proof.
  unfold_limits.
  pose proof (Z.mod_pos_bound z 18446744073709551616 eq_refl). lia.
Qed.

Lemma to_ptrdiff_t_small (z : Z) : is_ptrdiff_t z -> to_ptrdiff_t z = z.
Proof. intros Hz. unfold_limits. rewrite Z.mod_small; lia. Qed.

Lemma to_ptrdiff_t_range (z : Z) : is_ptrdiff_t (to_ptrdiff_t z).
Proof.
  unfold_limits.
  pose proof (Z.mod_pos_bound (z - -9223372036854775808)
                              18446744073709551616 eq_refl). lia.
Qed.

(** A [std::size_t] beyond [PTRDIFF_MAX] is a negative [Eigen::Index]. *)
Lemma to_ptrdiff_t_big (z : Z) :
  PTRDIFF_MAX < z <= SIZE_MAX -> to_ptrdiff_t z = z - (SIZE_MAX + 1).
Proof.
  intros Hz. unfold_limits.
  replace (z - -9223372036854775808)
    with (z - 9223372036854775808 + 1 * 18446744073709551616) by lia.
  rewrite Z.mod_add by lia. rewrite Z.mod_small; lia.
Qed.

Lemma ptrdiff_is_size_t (z : Z) : 0 <= z <= PTRDIFF_MAX -> is_size_t z.
Proof. unfold is_size_t, SIZE_MAX, PTRDIFF_MAX. lia. Qed.

Lemma ptrdiff_nonneg (z : Z) : 0 <= z <= PTRDIFF_MAX -> is_ptrdiff_t z.
Proof. unfold is_ptrdiff_t, PTRDIFF_MIN, PTRDIFF_MAX. lia. Qed.

(** ** Lists as dense vectors *)

Section DenseFacts.

Context {Scalar : Type}.
Implicit Types v w src : EigenType Scalar.

Lemma rows_nonneg v : 0 <= rows v.
Proof. unfold rows. lia. Qed.

Lemma rows_app v w : rows (v ++ w) = rows v + rows w.
Proof. unfold rows. rewrite length_app. lia. Qed.

Lemma rows_repeat (x : Scalar) (n : nat) : rows (repeat x n) = Z.of_nat n.
Proof. unfold rows. now rewrite repeat_length. Qed.

Lemma Constant_ok (n : Z) (x : Scalar) :
  0 <= n -> Constant n x = Ok (repeat x (Z.to_nat n)).
Proof.
  intros Hn. unfold Constant.
  destruct (Z.ltb_spec n 0); [lia | reflexivity].
Qed.

Lemma conservativeResize_grow (fresh : Scalar) v (n : Z) :
  rows v <= n ->
  conservativeResize fresh v n
  = Ok (v ++ repeat fresh (Z.to_nat (n - rows v))).
Proof.
  intros Hn. pose proof (rows_nonneg v) as Hv. unfold conservativeResize.
  destruct (Z.ltb_spec n 0); [lia |].
  unfold rows in *.
  rewrite firstn_all2 by lia.
  do 3 f_equal. lia.
Qed.

(** A block that is the middle of three pieces. *)
Lemma block_in_range_pieces v w src (n : Z) :
  rows w = n -> block_in_range (v ++ w ++ src) (rows v) n = true.
Proof.
  intros <-. unfold block_in_range.
  rewrite !rows_app.
  pose proof (rows_nonneg v). pose proof (rows_nonneg w).
  pose proof (rows_nonneg src).
  repeat (apply andb_true_intro; split); apply Z.leb_le; lia.
Qed.

Lemma block_pieces v w src (n : Z) :
  rows w = n -> block (v ++ w ++ src) (rows v) n = Ok w.
Proof.
  intros E. unfold block. rewrite block_in_range_pieces by exact E.
  f_equal. unfold rows in *.
  rewrite Nat2Z.id. rewrite skipn_app, skipn_all, Nat.sub_diag. cbn [skipn app].
  rewrite firstn_app.
  replace (Z.to_nat n) with (length w) by lia.
  rewrite firstn_all, Nat.sub_diag. cbn [firstn]. apply app_nil_r.
Qed.

Lemma block_assign_pieces v w src w' (n : Z) :
  rows w = n -> rows w' = n ->
  block_assign (v ++ w ++ src) (rows v) n w' = Ok (v ++ w' ++ src).
Proof.
  intros E E'. unfold block_assign.
  rewrite block_in_range_pieces by exact E.
  rewrite E', Z.eqb_refl. cbn [andb]. f_equal.
  unfold rows in *.
  rewrite Nat2Z.id, firstn_app, firstn_all, Nat.sub_diag. cbn [firstn].
  rewrite app_nil_r. do 2 f_equal.
  replace (Z.to_nat (Z.of_nat (length v) + n))
    with (length v + length w)%nat by lia.
  rewrite skipn_app, skipn_all2 by lia.
  replace (length v + length w - length v)%nat with (length w) by lia.
  rewrite skipn_app, skipn_all, Nat.sub_diag. reflexivity.
Qed.

(** Any in-range block cuts the vector in three pieces. *)
Lemma pieces_of_block v (startRow blockRows : Z) :
  0 <= startRow -> 0 <= blockRows -> startRow + blockRows <= rows v ->
  exists a b c,
    v = a ++ b ++ c /\ rows a = startRow /\ rows b = blockRows.
Proof.
  intros H0 H1 H2.
  exists (firstn (Z.to_nat startRow) v),
    (firstn (Z.to_nat blockRows) (skipn (Z.to_nat startRow) v)),
    (skipn (Z.to_nat blockRows) (skipn (Z.to_nat startRow) v)).
  unfold rows in *. split; [| split].
  - now rewrite !firstn_skipn.
  - rewrite length_firstn. lia.
  - rewrite length_firstn, length_skipn. lia.
Qed.

End DenseFacts.

Lemma Index_nonneg (r : Z) :
  is_size_t r -> 0 <= to_ptrdiff_t r -> to_ptrdiff_t r = r /\ r <= PTRDIFF_MAX.
Proof.
  intros Hr Hp.
  destruct (Z_le_gt_dec r PTRDIFF_MAX) as [Hle | Hgt].
  - split; [| exact Hle]. apply to_ptrdiff_t_small. unfold_limits. lia.
  - rewrite to_ptrdiff_t_big in Hp; unfold_limits; lia.
Qed.

(** ** The row/count codec *)

Section Codec.

Context {Scalar U : Type} `{UV : UnitVector Scalar U}.

Lemma unit_size_rows : unit_size = rows (unit_toEigen unit_default).
Proof.
  unfold unit_size. apply to_size_t_small, ptrdiff_is_size_t.
  split; [apply rows_nonneg | apply unit_rows_ok].
Qed.

Lemma unit_size_range : 0 <= unit_size <= PTRDIFF_MAX.
Proof.
  rewrite unit_size_rows. split; [apply rows_nonneg | apply unit_rows_ok].
Qed.

Lemma unit_toEigen_rows (u : U) : rows (unit_toEigen u) = unit_size.
Proof. rewrite unit_size_rows. apply unit_rows_fixed. Qed.

Lemma unitCountFromRows_multiple (r : Z) :
  0 < unit_size -> r mod unit_size = 0 ->
  unitCountFromRows r = Ok (to_ptrdiff_t (r / unit_size)).
Proof.
  intros Hus Hm. unfold unitCountFromRows.
  destruct (Z.ltb_spec 0 unit_size); [| lia].
  rewrite Hm. reflexivity.
Qed.

Lemma unitCountFromRows_non_multiple (r : Z) :
  0 < unit_size -> r mod unit_size <> 0 ->
  unitCountFromRows r = Throw (domain_error what_non_multiple).
Proof.
  intros Hus Hm. unfold unitCountFromRows.
  destruct (Z.ltb_spec 0 unit_size); [| lia].
  destruct (Z.eqb_spec (r mod unit_size) 0); [contradiction | reflexivity].
Qed.

Lemma unitCountFromRows_null (r : Z) :
  unit_size = 0 -> unitCountFromRows r = Ok (-1).
Proof. intros Hus. unfold unitCountFromRows. now rewrite Hus. Qed.

Lemma rowsFromUnitCount_nonneg (n : Z) :
  is_ptrdiff_t n -> 0 <= n ->
  rowsFromUnitCount n = Ok (to_size_t (n * unit_size)).
Proof.
  intros Hn H0. unfold rowsFromUnitCount.
  destruct (Z.leb_spec 0 n); [| lia].
  rewrite (to_size_t_small (z := n)); [reflexivity |].
  apply ptrdiff_is_size_t. unfold_limits. lia.
Qed.

Lemma rowsFromUnitCount_negative_null (n : Z) :
  n < 0 -> unit_size = 0 -> rowsFromUnitCount n = Ok 0.
Proof.
  intros Hn Hus. unfold rowsFromUnitCount.
  destruct (Z.leb_spec 0 n); [lia |]. now rewrite Hus.
Qed.

Lemma rowsFromUnitCount_negative (n : Z) :
  n < 0 -> 0 < unit_size ->
  rowsFromUnitCount n = Throw (domain_error what_negative_count).
Proof.
  intros Hn Hus. unfold rowsFromUnitCount.
  destruct (Z.leb_spec 0 n); [lia |].
  destruct (Z.eqb_spec unit_size 0); [lia | reflexivity].
Qed.

Lemma rowsFromUnitCount_range (n r : Z) :
  rowsFromUnitCount n = Ok r -> is_size_t r.
Proof.
  unfold rowsFromUnitCount.
  destruct (0 <=? n).
  - intros [= <-]. apply to_size_t_range.
  - destruct (negb (unit_size =? 0)); [discriminate |].
    intros [= <-]. unfold_limits. lia.
Qed.

(** With a null unit every count is sent to zero rows. *)
Lemma rowsFromUnitCount_null (n : Z) :
  unit_size = 0 -> rowsFromUnitCount n = Ok 0.
Proof.
  intros Hus. unfold rowsFromUnitCount. rewrite Hus.
  rewrite Z.mul_0_r. destruct (0 <=? n); reflexivity.
Qed.

(** C3 (amended): the codec in both directions.  [unitCountFromRows]
    returns the quotient converted to [std::ptrdiff_t], which is the
    quotient itself when it is at most [PTRDIFF_MAX]; it throws the domain
    error on a non-multiple and returns -1 for a null unit.
    [rowsFromUnitCount] returns, for a count that is not negative, the
    product reduced modulo 2^64, which is the product itself when it is at
    most [SIZE_MAX]; for a negative count it returns 0 for a null unit and
    throws the domain error otherwise. *)
Theorem codec_both_directions (r n : Z) :
  is_size_t r -> is_ptrdiff_t n ->
  (0 < unit_size -> r mod unit_size = 0 ->
     unitCountFromRows r = Ok (to_ptrdiff_t (r / unit_size)) /\
     (r / unit_size <= PTRDIFF_MAX ->
      unitCountFromRows r = Ok (r / unit_size))) /\
  (0 < unit_size -> r mod unit_size <> 0 ->
     unitCountFromRows r = Throw (domain_error what_non_multiple)) /\
  (unit_size = 0 -> unitCountFromRows r = Ok (-1)) /\
  (0 <= n ->
     rowsFromUnitCount n = Ok (to_size_t (n * unit_size)) /\
     (n * unit_size <= SIZE_MAX ->
      rowsFromUnitCount n = Ok (n * unit_size))) /\
  (n < 0 -> unit_size = 0 -> rowsFromUnitCount n = Ok 0) /\
  (n < 0 -> 0 < unit_size ->
     rowsFromUnitCount n = Throw (domain_error what_negative_count)).
Proof.
  intros Hr Hn. pose proof unit_size_range as Hus.
  repeat split.
  - now apply unitCountFromRows_multiple.
  - intros Hq. rewrite unitCountFromRows_multiple by assumption.
    rewrite to_ptrdiff_t_small; [reflexivity |].
    apply ptrdiff_nonneg. split; [| exact Hq].
    apply Z.div_pos; unfold_limits; lia.
  - now apply unitCountFromRows_non_multiple.
  - apply unitCountFromRows_null.
  - now apply rowsFromUnitCount_nonneg.
  - intros Hp. rewrite rowsFromUnitCount_nonneg by assumption.
    rewrite to_size_t_small; [reflexivity |].
    unfold is_size_t. split; [nia | exact Hp].
  - now apply rowsFromUnitCount_negative_null.
  - now apply rowsFromUnitCount_negative.
Qed.

End Codec.

(** ** Construction *)

Section Construction.

Context {Scalar U : Type} `{UV : UnitVector Scalar U}.
Variable NaN : Scalar.

Lemma NAryState_default_non_null :
  0 < unit_size ->
  NAryState_default
  = Ok {| unit_size_ := unit_size; count_ := 0; combined_vector_ := [] |}.
Proof.
  intros Hus. unfold NAryState_default.
  rewrite unitCountFromRows_multiple; [reflexivity | exact Hus |].
  apply Z.mod_0_l. lia.
Qed.

Lemma NAryState_default_null :
  unit_size = 0 ->
  NAryState_default
  = Ok {| unit_size_ := unit_size; count_ := -1; combined_vector_ := [] |}.
Proof.
  intros Hus. unfold NAryState_default.
  now rewrite unitCountFromRows_null.
Qed.

(** What a sized construction that returns has computed. *)
Lemma NAryState_count_inversion (n : Z) (s : NAryState) :
  NAryState_count NaN n = Ok s ->
  exists r,
    rowsFromUnitCount n = Ok r /\
    unitCountFromRows r = Ok (count_ s) /\
    r <= PTRDIFF_MAX /\
    unit_size_ s = unit_size /\
    combined_vector_ s = repeat NaN (Z.to_nat r).
Proof.
  unfold NAryState_count.
  destruct (rowsFromUnitCount n) as [r |] eqn:Er; cbn [rbind]; [| discriminate].
  destruct (unitCountFromRows r) as [c |] eqn:Ec; cbn [rbind]; [| discriminate].
  unfold Constant.
  destruct (Z.ltb_spec (to_ptrdiff_t r) 0) as [| Hp]; cbn [rbind]; [discriminate |].
  intros [= <-]. cbn.
  destruct (Index_nonneg (rowsFromUnitCount_range _ Er) Hp) as [E Hle].
  exists r. rewrite E. auto.
Qed.

Lemma NAryState_count_non_null (n : Z) :
  0 < unit_size -> 0 <= n -> n * unit_size <= PTRDIFF_MAX ->
  NAryState_count NaN n
  = Ok {| unit_size_ := unit_size; count_ := n;
          combined_vector_ := repeat NaN (Z.to_nat (n * unit_size)) |}.
Proof.
  intros Hus Hn Hle.
  assert (Hn' : is_ptrdiff_t n) by (unfold_limits; nia).
  assert (Hr : is_ptrdiff_t (n * unit_size)) by (unfold_limits; nia).
  unfold NAryState_count.
  rewrite rowsFromUnitCount_nonneg by assumption.
  rewrite to_size_t_small by (unfold_limits; lia).
  cbn [rbind].
  rewrite unitCountFromRows_multiple;
    [| exact Hus | apply Z.mod_mul; lia].
  rewrite Z.div_mul by lia.
  rewrite !to_ptrdiff_t_small by assumption.
  cbn [rbind]. rewrite Constant_ok by nia. reflexivity.
Qed.

Lemma NAryState_count_null (n : Z) :
  unit_size = 0 ->
  NAryState_count NaN n
  = Ok {| unit_size_ := unit_size; count_ := -1; combined_vector_ := [] |}.
Proof.
  intros Hus. unfold NAryState_count.
  rewrite rowsFromUnitCount_null by exact Hus. cbn [rbind].
  rewrite unitCountFromRows_null by exact Hus. reflexivity.
Qed.

(** C8 (amended): a sized construction that returns holds
    [rowsFromUnitCount(count)] rows, all not-a-number, and the count
    [unitCountFromRows(rowsFromUnitCount(count))].  With a non-null unit,
    a count that is not negative and a product [count * unit_size] that an
    [Eigen::Index] can hold, it returns with [count() == count],
    [size() == count * unit_size] and every scalar not-a-number.  With a
    null unit it returns with [count() == -1] whatever was requested. *)
Theorem sized_construction (n : Z) :
  is_ptrdiff_t n ->
  (forall s, NAryState_count NaN n = Ok s ->
     exists r, rowsFromUnitCount n = Ok r /\
               unitCountFromRows r = Ok (count s) /\
               size s = r /\
               toEigen s = repeat NaN (Z.to_nat r)) /\
  (0 < unit_size -> 0 <= n -> n * unit_size <= PTRDIFF_MAX ->
     exists s, NAryState_count NaN n = Ok s /\
               count s = n /\
               size s = n * unit_size /\
               toEigen s = repeat NaN (Z.to_nat (n * unit_size))) /\
  (unit_size = 0 ->
     exists s, NAryState_count NaN n = Ok s /\ count s = -1).
Proof.
  intros Hn. split; [| split].
  - intros s Hs.
    destruct (NAryState_count_inversion _ Hs) as (r & Er & Ec & Hle & _ & Ev).
    exists r. repeat split; try assumption.
    unfold size. rewrite Ev, rows_repeat.
    pose proof (rowsFromUnitCount_range _ Er) as Hr.
    rewrite Z2Nat.id by (unfold_limits; lia).
    now apply to_size_t_small.
  - intros Hus H0 Hle. eexists. split.
    + now apply NAryState_count_non_null.
    + unfold count, size, toEigen. cbn. repeat split.
      rewrite rows_repeat, Z2Nat.id by nia.
      apply to_size_t_small, ptrdiff_is_size_t. nia.
  - intros Hus. eexists. split.
    + now apply NAryState_count_null.
    + reflexivity.
Qed.

End Construction.

(** ** The mutating members on an object that satisfies the invariant *)

Section Members.

Context {Scalar U : Type} `{UV : UnitVector Scalar U}.
Variables NaN fresh : Scalar.

Ltac run_method :=
  unfold append, set, assign, mbind, this, lift, store_vector, store_count,
    mret, assert; cbn [unit_size_ count_ combined_vector_ fst snd].

Lemma append_null (s : NAryState) (unit : U) :
  unit_size = 0 -> inv s -> append fresh unit s = (s, Ok tt).
Proof.
  intros Hus (Eus & _ & _ & Hc). run_method.
  rewrite Eus, Hus, (Hc Hus). reflexivity.
Qed.

Lemma append_non_null (s : NAryState) (unit : U) :
  0 < unit_size -> inv s ->
  rows (combined_vector_ s) + unit_size <= PTRDIFF_MAX ->
  append fresh unit s
  = ({| unit_size_ := unit_size_ s;
        count_ := count_ s + 1;
        combined_vector_ := combined_vector_ s ++ unit_toEigen unit |},
     Ok tt).
Proof.
  intros Hus (Eus & Hok & Hc & _) Hfit.
  destruct (Hc Hus) as [Hc0 Hrows].
  pose proof (rows_nonneg (combined_vector_ s)) as Hv.
  assert (Hus' : is_ptrdiff_t unit_size) by (unfold_limits; lia).
  run_method. rewrite Eus.
  destruct (Z.eqb_spec unit_size 0); [lia |].
  rewrite (to_size_t_small (z := _ + _)) by (unfold_limits; lia).
  rewrite (to_ptrdiff_t_small (z := _ + _)) by (unfold_limits; lia).
  rewrite conservativeResize_grow by lia.
  cbn [unit_size_ count_ combined_vector_].
  rewrite (to_ptrdiff_t_small Hus').
  unfold bottomRows_assign.
  replace (rows (combined_vector_ s) + unit_size - rows (combined_vector_ s))
    with unit_size by lia.
  set (w := repeat fresh (Z.to_nat unit_size)).
  assert (Hw : rows w = unit_size)
    by (unfold w; rewrite rows_repeat; lia).
  rewrite rows_app, Hw, Z.add_simpl_r.
  rewrite <- (app_nil_r w) at 1.
  rewrite (block_assign_pieces (combined_vector_ s) w [] (unit_toEigen unit)
                               Hw (unit_toEigen_rows unit)).
  cbn [unit_size_ count_ combined_vector_]. rewrite app_nil_r.
  rewrite to_ptrdiff_t_small; [now rewrite Eus |].
  unfold_limits. nia.
Qed.

(** A buffer that an [Eigen::Index] cannot describe after the growth is
    refused, and the object is as it was. *)
Lemma append_refused (s : NAryState) (unit : U) :
  0 < unit_size -> inv s ->
  PTRDIFF_MAX < rows (combined_vector_ s) + unit_size ->
  append fresh unit s = (s, Throw bad_alloc).
Proof.
  intros Hus (Eus & Hok & Hc & _) Hfit.
  pose proof (rows_nonneg (combined_vector_ s)) as Hv.
  pose proof unit_size_range as Hr. unfold Eigen_ok in Hok.
  run_method. rewrite Eus.
  destruct (Z.eqb_spec unit_size 0); [lia |].
  rewrite (to_size_t_small (z := _ + _)) by (unfold_limits; lia).
  rewrite to_ptrdiff_t_big by (unfold_limits; lia).
  unfold conservativeResize.
  destruct (Z.ltb_spec (rows (combined_vector_ s) + unit_size - (SIZE_MAX + 1)) 0);
    [reflexivity | unfold_limits; lia].
Qed.

(** *** The bound check *)

Lemma count_range (s : NAryState) :
  0 < unit_size -> inv s -> 0 <= count_ s <= PTRDIFF_MAX.
Proof.
  intros Hus (_ & Hok & Hc & _). destruct (Hc Hus) as [Hc0 Hrows].
  unfold Eigen_ok in Hok. split; [exact Hc0 | nia].
Qed.

Lemma index_ok_non_null (s : NAryState) (i : Z) :
  0 < unit_size -> inv s -> index_ok s i = (i <? count_ s).
Proof.
  intros Hus Hs. pose proof (count_range Hus Hs) as Hc.
  destruct Hs as (Eus & _). unfold index_ok. rewrite Eus.
  destruct (Z.eqb_spec unit_size 0); [lia |]. cbn [orb].
  rewrite to_size_t_small; [reflexivity | now apply ptrdiff_is_size_t].
Qed.

Lemma index_ok_null (s : NAryState) (i : Z) :
  unit_size = 0 -> inv s -> index_ok s i = true.
Proof.
  intros Hus (Eus & _). unfold index_ok. now rewrite Eus, Hus.
Qed.

(** The first row of unit [i], for an index that passed the check. *)
Lemma row0_of_in_range (s : NAryState) (i : Z) :
  0 < unit_size -> inv s -> 0 <= i < count_ s ->
  row0_of s i = i * unit_size /\
  0 <= i * unit_size /\
  i * unit_size + unit_size <= rows (combined_vector_ s).
Proof.
  intros Hus Hs Hi. destruct (Hs) as (Eus & Hok & Hc & _).
  destruct (Hc Hus) as [_ Hrows]. unfold Eigen_ok in Hok.
  assert (H1 : 0 <= i * unit_size) by nia.
  assert (H2 : i * unit_size + unit_size <= rows (combined_vector_ s)) by nia.
  repeat split; try assumption.
  unfold row0_of. rewrite Eus.
  apply to_size_t_small, ptrdiff_is_size_t. lia.
Qed.

Lemma row0_of_null (s : NAryState) (i : Z) :
  unit_size = 0 -> inv s -> row0_of s i = 0.
Proof.
  intros Hus (Eus & _). unfold row0_of. now rewrite Eus, Hus, Z.mul_0_r.
Qed.

(** *** [get] and [set] on a buffer cut at the unit *)

Lemma index_of_pieces (s : NAryState) (i : Z) (a b c : EigenType Scalar) :
  0 < unit_size -> inv s ->
  combined_vector_ s = a ++ b ++ c ->
  rows a = i * unit_size -> rows b = unit_size ->
  0 <= i < count_ s.
Proof.
  intros Hus (_ & _ & Hc & _) Ev Ea Eb. destruct (Hc Hus) as [_ Hrows].
  rewrite Ev, !rows_app, Ea, Eb in Hrows.
  pose proof (rows_nonneg a). pose proof (rows_nonneg c). nia.
Qed.

Lemma get_pieces (s : NAryState) (i : Z) (a b c : EigenType Scalar) :
  0 < unit_size -> inv s ->
  combined_vector_ s = a ++ b ++ c ->
  rows a = i * unit_size -> rows b = unit_size ->
  get s i = Ok (unit_fromEigen b).
Proof.
  intros Hus Hs Ev Ea Eb.
  assert (Hi : 0 <= i < count_ s) by (eapply index_of_pieces; eassumption).
  destruct (row0_of_in_range Hus Hs Hi) as (Er & H0 & H1).
  pose proof unit_size_range as Hr.
  pose proof Hs as (Eus & Hok & _). unfold Eigen_ok in Hok.
  unfold get. rewrite index_ok_non_null by assumption.
  destruct (Z.ltb_spec i (count_ s)); [| lia]. cbn [negb].
  rewrite Er, Eus.
  rewrite !to_ptrdiff_t_small by (apply ptrdiff_nonneg; lia).
  rewrite Ev, <- Ea, block_pieces by exact Eb. reflexivity.
Qed.

Lemma set_pieces (s : NAryState) (i : Z) (unit : U)
      (a b c : EigenType Scalar) :
  0 < unit_size -> inv s ->
  combined_vector_ s = a ++ b ++ c ->
  rows a = i * unit_size -> rows b = unit_size ->
  set i unit s
  = ({| unit_size_ := unit_size_ s; count_ := count_ s;
        combined_vector_ := a ++ unit_toEigen unit ++ c |}, Ok tt).
Proof.
  intros Hus Hs Ev Ea Eb.
  assert (Hi : 0 <= i < count_ s) by (eapply index_of_pieces; eassumption).
  destruct (row0_of_in_range Hus Hs Hi) as (Er & H0 & H1).
  pose proof unit_size_range as Hr.
  pose proof Hs as (Eus & Hok & _). unfold Eigen_ok in Hok.
  run_method. rewrite index_ok_non_null by assumption.
  destruct (Z.ltb_spec i (count_ s)); [| lia]. cbn [negb].
  rewrite Er, Eus.
  rewrite !to_ptrdiff_t_small by (apply ptrdiff_nonneg; lia).
  rewrite Ev, <- Ea.
  rewrite (block_assign_pieces a b c (unit_toEigen unit) Eb
                               (unit_toEigen_rows unit)).
  reflexivity.
Qed.

Lemma get_out_of_range (s : NAryState) (i : Z) :
  0 < unit_size -> inv s -> count_ s <= i ->
  get s i = Throw (out_of_range what_get_set).
Proof.
  intros Hus Hs Hi. unfold get.
  rewrite index_ok_non_null by assumption.
  destruct (Z.ltb_spec i (count_ s)); [lia | reflexivity].
Qed.

Lemma set_out_of_range (s : NAryState) (i : Z) (unit : U) :
  0 < unit_size -> inv s -> count_ s <= i ->
  set i unit s = (s, Throw (out_of_range what_get_set)).
Proof.
  intros Hus Hs Hi. run_method.
  rewrite index_ok_non_null by assumption.
  destruct (Z.ltb_spec i (count_ s)); [lia | reflexivity].
Qed.

(** With a null unit the block is empty at every index. *)
Lemma get_null (s : NAryState) (i : Z) :
  unit_size = 0 -> inv s -> get s i = Ok (unit_fromEigen []).
Proof.
  intros Hus Hs. pose proof Hs as (Eus & _).
  unfold get. rewrite index_ok_null, row0_of_null by assumption.
  cbn [negb]. rewrite Eus, Hus.
  change (to_ptrdiff_t 0) with 0.
  change (block (combined_vector_ s) 0 0)
    with (block ([] ++ [] ++ combined_vector_ s) (rows (@nil Scalar)) 0).
  now rewrite block_pieces.
Qed.

Lemma set_null (s : NAryState) (i : Z) (unit : U) :
  unit_size = 0 -> inv s -> set i unit s = (s, Ok tt).
Proof.
  intros Hus Hs. pose proof Hs as (Eus & _).
  run_method. rewrite index_ok_null, row0_of_null by assumption.
  cbn [negb]. rewrite Eus, Hus.
  change (to_ptrdiff_t 0) with 0.
  pose proof (unit_toEigen_rows unit) as E. rewrite Hus in E.
  change (block_assign (combined_vector_ s) 0 0)
    with (block_assign ([] ++ [] ++ combined_vector_ s) (rows (@nil Scalar)) 0).
  rewrite (@block_assign_pieces _ [] [] (combined_vector_ s)
                                (unit_toEigen unit) 0 eq_refl E).
  destruct (unit_toEigen unit); [| unfold rows in E; cbn in E; lia].
  destruct s; cbn [unit_size_ count_ combined_vector_ app] in *.
  now rewrite Eus, Hus.
Qed.

(** *** Assignment from a flat vector *)

Lemma rows_is_size_t (v : EigenType Scalar) :
  Eigen_ok v -> to_size_t (rows v) = rows v.
Proof.
  intros Hv. apply to_size_t_small, ptrdiff_is_size_t.
  split; [apply rows_nonneg | exact Hv].
Qed.

Lemma unitCountFromRows_vector (v : EigenType Scalar) :
  0 < unit_size -> Eigen_ok v -> rows v mod unit_size = 0 ->
  unitCountFromRows (to_size_t (rows v)) = Ok (rows v / unit_size).
Proof.
  intros Hus Hv Hm. unfold Eigen_ok in Hv.
  pose proof (rows_nonneg v) as H0.
  rewrite rows_is_size_t by exact Hv.
  rewrite unitCountFromRows_multiple by assumption.
  rewrite to_ptrdiff_t_small; [reflexivity |].
  apply ptrdiff_nonneg. split.
  - apply Z.div_pos; lia.
  - apply Z.le_trans with (rows v); [| exact Hv].
    apply Z.div_le_upper_bound; nia.
Qed.

Lemma assign_multiple (s : NAryState) (rhs : EigenType Scalar) :
  0 < unit_size -> Eigen_ok rhs -> rows rhs mod unit_size = 0 ->
  assign rhs s
  = ({| unit_size_ := unit_size_ s; count_ := rows rhs / unit_size;
        combined_vector_ := rhs |}, Ok tt).
Proof.
  intros Hus Hv Hm. run_method.
  now rewrite unitCountFromRows_vector.
Qed.

Lemma assign_non_multiple (s : NAryState) (rhs : EigenType Scalar) :
  0 < unit_size -> Eigen_ok rhs -> rows rhs mod unit_size <> 0 ->
  assign rhs s = (s, Throw (domain_error what_non_multiple)).
Proof.
  intros Hus Hv Hm. run_method.
  rewrite rows_is_size_t by exact Hv.
  now rewrite unitCountFromRows_non_multiple.
Qed.

Lemma assign_null (s : NAryState) (rhs : EigenType Scalar) :
  unit_size = 0 ->
  assign rhs s
  = ({| unit_size_ := unit_size_ s; count_ := -1;
        combined_vector_ := rhs |}, Ok tt).
Proof.
  intros Hus. run_method. now rewrite unitCountFromRows_null.
Qed.

(** *** The invariant is established and preserved *)

Lemma unitCountFromRows_inversion (r c : Z) :
  0 < unit_size -> 0 <= r <= PTRDIFF_MAX ->
  unitCountFromRows r = Ok c -> 0 <= c /\ r = c * unit_size.
Proof.
  intros Hus Hr. unfold unitCountFromRows.
  destruct (Z.ltb_spec 0 unit_size); [| lia].
  destruct (Z.eqb_spec (r mod unit_size) 0) as [Hm |]; [| discriminate].
  cbn [negb]. intros [= <-].
  assert (Hq : 0 <= r / unit_size) by (apply Z.div_pos; lia).
  assert (Hq' : r / unit_size <= r) by (apply Z.div_le_upper_bound; nia).
  rewrite to_ptrdiff_t_small by (apply ptrdiff_nonneg; lia).
  split; [exact Hq |].
  rewrite Z.mul_comm. apply Z.div_exact; lia.
Qed.

Lemma inv_intro (us c : Z) (v : EigenType Scalar) :
  us = unit_size -> Eigen_ok v ->
  unitCountFromRows (rows v) = Ok c ->
  inv {| unit_size_ := us; count_ := c; combined_vector_ := v |}.
Proof.
  intros Eus Hv Ec. unfold inv. cbn [unit_size_ count_ combined_vector_].
  repeat split; try assumption.
  - eapply unitCountFromRows_inversion; eauto.
    split; [apply rows_nonneg | exact Hv].
  - eapply unitCountFromRows_inversion; eauto.
    split; [apply rows_nonneg | exact Hv].
  - intros Hus. rewrite unitCountFromRows_null in Ec by exact Hus.
    congruence.
Qed.

Lemma NAryState_default_inv (s : NAryState) :
  NAryState_default = Ok s -> inv s.
Proof.
  unfold NAryState_default.
  destruct (unitCountFromRows 0) as [c |] eqn:Ec; cbn [rbind]; [| discriminate].
  intros [= <-]. apply inv_intro; [reflexivity | | exact Ec].
  unfold Eigen_ok, rows, PTRDIFF_MAX. cbn. lia.
Qed.

Lemma NAryState_count_inv (n : Z) (s : NAryState) :
  NAryState_count NaN n = Ok s -> inv s.
Proof.
  intros Hs.
  destruct (NAryState_count_inversion _ _ Hs) as (r & Er & Ec & Hle & Eus & Ev).
  pose proof (rowsFromUnitCount_range _ Er) as Hr.
  assert (Erows : rows (combined_vector_ s) = r).
  { rewrite Ev, rows_repeat. unfold_limits. lia. }
  destruct s as [us c v]. cbn [unit_size_ count_ combined_vector_] in *.
  apply inv_intro; [exact Eus | unfold Eigen_ok; lia | now rewrite Erows].
Qed.

Lemma NAryState_initial_inv (initial : EigenType Scalar) (s : NAryState) :
  Eigen_ok initial -> NAryState_initial initial = Ok s -> inv s.
Proof.
  intros Hv. unfold NAryState_initial. rewrite rows_is_size_t by exact Hv.
  destruct (unitCountFromRows (rows initial)) as [c |] eqn:Ec;
    cbn [rbind]; [| discriminate].
  intros [= <-]. now apply inv_intro.
Qed.

Lemma append_inv (s : NAryState) (unit : U) :
  inv s -> inv (fst (append fresh unit s)).
Proof.
  intros Hs. pose proof unit_size_range as Hr.
  destruct (Z.eq_dec unit_size 0) as [Hus | Hus].
  { now rewrite append_null. }
  destruct (Z_le_gt_dec (rows (combined_vector_ s) + unit_size) PTRDIFF_MAX)
    as [Hfit | Hfit].
  - rewrite append_non_null by (assumption || lia). cbn [fst].
    destruct Hs as (Eus & Hok & Hc & _).
    destruct Hc as [Hc0 Hrows]; [lia |].
    unfold inv, Eigen_ok. cbn [unit_size_ count_ combined_vector_].
    rewrite rows_app, unit_toEigen_rows.
    repeat split; try assumption; lia.
  - now rewrite append_refused by (assumption || lia).
Qed.

Lemma set_inv (s : NAryState) (i : Z) (unit : U) :
  inv s -> is_size_t i -> inv (fst (set i unit s)).
Proof.
  intros Hs Hi. pose proof unit_size_range as Hr.
  destruct (Z.eq_dec unit_size 0) as [Hus | Hus].
  { now rewrite set_null. }
  assert (Hus' : 0 < unit_size) by lia.
  destruct (Z_lt_le_dec i (count_ s)) as [Hlt | Hge].
  - assert (Hi' : 0 <= i < count_ s) by (unfold is_size_t in Hi; lia).
    destruct (row0_of_in_range Hus' Hs Hi') as (_ & H0 & H1).
    destruct (pieces_of_block (combined_vector_ s) H0 (proj1 Hr) H1)
      as (a & b & c & Ev & Ea & Eb).
    rewrite (@set_pieces s i unit a b c Hus' Hs Ev Ea Eb). cbn [fst].
    destruct Hs as (Eus & Hok & Hc & _).
    unfold inv, Eigen_ok in *. cbn [unit_size_ count_ combined_vector_].
    rewrite Ev in Hok, Hc.
    rewrite !rows_app, unit_toEigen_rows in *. rewrite Eb in Hok, Hc.
    repeat split; try tauto; lia.
  - now rewrite set_out_of_range.
Qed.

Lemma assign_inv (s : NAryState) (rhs : EigenType Scalar) :
  inv s -> Eigen_ok rhs -> inv (fst (assign rhs s)).
Proof.
  intros Hs Hv. pose proof unit_size_range as Hr.
  pose proof Hs as (Eus & _).
  destruct (Z.eq_dec unit_size 0) as [Hus | Hus].
  { rewrite assign_null by exact Hus. cbn [fst].
    apply inv_intro; [exact Eus | exact Hv |].
    now apply unitCountFromRows_null. }
  assert (Hus' : 0 < unit_size) by lia.
  destruct (Z.eq_dec (rows rhs mod unit_size) 0) as [Hm | Hm].
  - rewrite assign_multiple by assumption. cbn [fst].
    apply inv_intro; [exact Eus | exact Hv |].
    rewrite <- (rows_is_size_t Hv) at 1. now apply unitCountFromRows_vector.
  - now rewrite assign_non_multiple.
Qed.

Lemma reachable_inv (s : NAryState) : reachable NaN fresh s -> inv s.
Proof.
  induction 1.
  - now apply NAryState_default_inv.
  - eapply NAryState_count_inv; eassumption.
  - eapply NAryState_initial_inv; eassumption.
  - now apply append_inv.
  - now apply set_inv.
  - now apply assign_inv.
Qed.

(** *** Reading a unit back *)

Lemma get_in_range (s : NAryState) (i : Z) :
  0 < unit_size -> inv s -> 0 <= i < count_ s ->
  exists a b c,
    combined_vector_ s = a ++ b ++ c /\
    rows a = i * unit_size /\ rows b = unit_size /\
    get s i = Ok (unit_fromEigen b).
Proof.
  intros Hus Hs Hi. pose proof unit_size_range as Hr.
  destruct (row0_of_in_range Hus Hs Hi) as (_ & H0 & H1).
  destruct (pieces_of_block (combined_vector_ s) H0 (proj1 Hr) H1)
    as (a & b & c & Ev & Ea & Eb).
  exists a, b, c. repeat split; try assumption.
  exact (@get_pieces s i a b c Hus Hs Ev Ea Eb).
Qed.

(** A unit other than the one at [rows a] lies in [a] or in [c], and is
    read the same whatever block of the same length stands between. *)
Lemma get_frame (s s' : NAryState) (i j : Z) (a b b' c : EigenType Scalar) :
  0 < unit_size -> inv s -> inv s' ->
  combined_vector_ s = a ++ b ++ c ->
  combined_vector_ s' = a ++ b' ++ c ->
  rows a = i * unit_size -> rows b = unit_size -> rows b' = unit_size ->
  0 <= j < count_ s -> j <> i ->
  get s' j = get s j.
Proof.
  intros Hus Hs Hs' Ev Ev' Ea Eb Eb' Hj Hne.
  pose proof unit_size_range as Hr.
  pose proof (rows_nonneg a) as Ha0. pose proof (rows_nonneg c) as Hc0.
  pose proof Hs as (_ & _ & Hc & _). destruct (Hc Hus) as [_ Hrows].
  rewrite Ev, !rows_app, Ea, Eb in Hrows. clear Hc.
  destruct (Z_lt_le_dec j i) as [Hlt | Hgt].
  - assert (H1 : j * unit_size + unit_size <= rows a) by nia.
    assert (H0 : 0 <= j * unit_size) by nia.
    destruct (pieces_of_block a H0 (proj1 Hr) H1)
      as (a1 & bj & a2 & Ea' & Ea1 & Ebj).
    rewrite Ea', <- !app_assoc in Ev, Ev'.
    rewrite (@get_pieces s j a1 bj _ Hus Hs Ev Ea1 Ebj).
    rewrite (@get_pieces s' j a1 bj _ Hus Hs' Ev' Ea1 Ebj).
    reflexivity.
  - assert (H0 : 0 <= (j - i - 1) * unit_size) by nia.
    assert (H1 : (j - i - 1) * unit_size + unit_size <= rows c) by nia.
    destruct (pieces_of_block c H0 (proj1 Hr) H1)
      as (c1 & bj & c2 & Ec' & Ec1 & Ebj).
    assert (E : rows (a ++ b ++ c1) = j * unit_size)
      by (rewrite !rows_app, Ea, Eb, Ec1; lia).
    assert (E' : rows (a ++ b' ++ c1) = j * unit_size)
      by (rewrite !rows_app, Ea, Eb', Ec1; lia).
    assert (Ew : combined_vector_ s = (a ++ b ++ c1) ++ bj ++ c2)
      by (rewrite Ev, Ec', <- !app_assoc; reflexivity).
    assert (Ew' : combined_vector_ s' = (a ++ b' ++ c1) ++ bj ++ c2)
      by (rewrite Ev', Ec', <- !app_assoc; reflexivity).
    rewrite (@get_pieces s j _ bj _ Hus Hs Ew E Ebj).
    rewrite (@get_pieces s' j _ bj _ Hus Hs' Ew' E' Ebj).
    reflexivity.
Qed.

End Members.

(** ** The container's contract *)

Section Contract.

Context {Scalar U : Type} `{UV : UnitVector Scalar U}.
Variables NaN fresh : Scalar.

(** C1: with a non-null unit, every object that a constructor returned
    and that went through any sequence of [append], [set] and assignments
    from a flat vector has a buffer of [count() * unit_size] rows, and a
    count that is not negative. *)
Theorem length_invariant (s : NAryState) :
  0 < unit_size -> reachable NaN fresh s ->
  rows (toEigen s) = count s * unit_size /\
  size s = count s * unit_size /\
  0 <= count s.
Proof.
  intros Hus Hreach.
  destruct (reachable_inv Hreach) as (_ & Hok & Hc & _).
  destruct (Hc Hus) as [Hc0 Hrows].
  unfold toEigen, size, count. repeat split; try assumption.
  now rewrite rows_is_size_t.
Qed.

(** C4: with a non-null unit, [append(v)] returns, keeps every existing
    row, puts the flattened [v] in the [unit_size] rows it adds, and adds
    exactly one to [count()]; [get(count() - 1)] then returns a unit with
    the components of [v].  The buffer after the call is a dense vector
    like any other: its row count is an [Eigen::Index]. *)
Theorem append_then_get (s : NAryState) (v : U) :
  0 < unit_size -> inv s ->
  Eigen_ok (combined_vector_ s ++ unit_toEigen v) ->
  let s' := fst (append fresh v s) in
  snd (append fresh v s) = Ok tt /\
  toEigen s' = toEigen s ++ unit_toEigen v /\
  rows (unit_toEigen v) = unit_size /\
  size s' = size s + unit_size /\
  count s' = count s + 1 /\
  exists u, get s' (count s' - 1) = Ok u /\ unit_toEigen u = unit_toEigen v.
Proof.
  intros Hus Hs Hfit s'.
  unfold Eigen_ok in Hfit. rewrite rows_app, unit_toEigen_rows in Hfit.
  pose proof (append_inv fresh v Hs) as Hs'. fold s' in Hs'.
  assert (E : s' = {| unit_size_ := unit_size_ s;
                      count_ := count_ s + 1;
                      combined_vector_ := combined_vector_ s
                                            ++ unit_toEigen v |})
    by (unfold s'; now rewrite append_non_null).
  pose proof Hs as (_ & Hok & Hc & _). destruct (Hc Hus) as [Hc0 Hrows].
  split; [now rewrite append_non_null |].
  split; [now rewrite E |].
  split; [apply unit_toEigen_rows |].
  split.
  { unfold size. rewrite E. cbn [combined_vector_].
    rewrite !rows_is_size_t; try assumption.
    - now rewrite rows_app, unit_toEigen_rows.
    - unfold Eigen_ok. now rewrite rows_app, unit_toEigen_rows. }
  split; [now rewrite E |].
  exists (unit_fromEigen (unit_toEigen v)).
  split; [| apply unit_to_from, unit_rows_fixed].
  apply (@get_pieces _ _ _ s' (count s' - 1)
                     (combined_vector_ s) (unit_toEigen v) []).
  - exact Hus.
  - exact Hs'.
  - rewrite E. cbn [combined_vector_]. now rewrite app_nil_r.
  - rewrite E. unfold count. cbn [count_]. rewrite Hrows. f_equal. lia.
  - apply unit_toEigen_rows.
Qed.

(** C5: at a valid index (below [count()] for a non-null unit, any index
    for a null unit) [set(i, v)] returns, [get(i)] then returns a unit with
    the components of [v], [get(j)] at any other valid index returns what
    it returned before, and [count()] is what it was. *)
Theorem set_then_get (s : NAryState) (i j : Z) (v : U) :
  inv s -> is_size_t i -> is_size_t j ->
  (0 < unit_size -> i < count s) ->
  (0 < unit_size -> j < count s) ->
  let s' := fst (set i v s) in
  snd (set i v s) = Ok tt /\
  (exists u, get s' i = Ok u /\ unit_toEigen u = unit_toEigen v) /\
  (j <> i -> get s' j = get s j) /\
  count s' = count s.
Proof.
  intros Hs Hi Hj Hic Hjc s'. pose proof unit_size_range as Hr.
  pose proof (@set_inv _ _ _ s i v Hs Hi) as Hs'. fold s' in Hs'.
  destruct (Z.eq_dec unit_size 0) as [Hus | Hus].
  { assert (E : s' = s) by (unfold s'; now rewrite set_null).
    rewrite E. split; [now rewrite set_null |].
    split; [| split; reflexivity].
    exists (unit_fromEigen []). split; [now apply get_null |].
    pose proof (unit_toEigen_rows v) as Ev. rewrite Hus in Ev.
    destruct (unit_toEigen v); [| unfold rows in Ev; cbn in Ev; lia].
    apply unit_to_from. now rewrite <- unit_size_rows, Hus. }
  assert (Hus' : 0 < unit_size) by lia.
  assert (Hi' : 0 <= i < count_ s)
    by (specialize (Hic Hus'); unfold is_size_t, count in *; lia).
  destruct (get_in_range Hus' Hs Hi') as (a & b & c & Ev & Ea & Eb & _).
  pose proof (@set_pieces _ _ _ s i v a b c Hus' Hs Ev Ea Eb) as Eset.
  assert (E : s' = {| unit_size_ := unit_size_ s; count_ := count_ s;
                      combined_vector_ := a ++ unit_toEigen v ++ c |})
    by (unfold s'; now rewrite Eset).
  assert (Ev' : combined_vector_ s' = a ++ unit_toEigen v ++ c)
    by now rewrite E.
  split; [now rewrite Eset |].
  split.
  { exists (unit_fromEigen (unit_toEigen v)).
    split; [| apply unit_to_from, unit_rows_fixed].
    exact (@get_pieces _ _ _ s' i a (unit_toEigen v) c Hus' Hs' Ev' Ea
                       (unit_toEigen_rows v)). }
  split; [| now rewrite E].
  intros Hne.
  apply (@get_frame _ _ _ s s' i j a b (unit_toEigen v) c); try assumption.
  - apply unit_toEigen_rows.
  - specialize (Hjc Hus'). unfold is_size_t, count in *. lia.
Qed.

(** C6: with a non-null unit, [get(i)] and [set(i, unit)] throw
    [std::out_of_range] when [i >= count()] and return when
    [i < count()]; with a null unit they return for every index. *)
Theorem bound_check (s : NAryState) (i : Z) (unit : U) :
  inv s -> is_size_t i ->
  (0 < unit_size -> count s <= i ->
     get s i = Throw (out_of_range what_get_set) /\
     snd (set i unit s) = Throw (out_of_range what_get_set)) /\
  (0 < unit_size -> i < count s ->
     (exists u, get s i = Ok u) /\ snd (set i unit s) = Ok tt) /\
  (unit_size = 0 ->
     (exists u, get s i = Ok u) /\ snd (set i unit s) = Ok tt).
Proof.
  intros Hs Hi. split; [| split].
  - intros Hus Hge. split.
    + now apply get_out_of_range.
    + now rewrite set_out_of_range.
  - intros Hus Hlt.
    assert (Hi' : 0 <= i < count_ s) by (unfold is_size_t, count in *; lia).
    destruct (get_in_range Hus Hs Hi') as (a & b & c & Ev & Ea & Eb & Eg).
    split; [eauto |].
    now rewrite (@set_pieces _ _ _ s i unit a b c Hus Hs Ev Ea Eb).
  - intros Hus. split.
    + eexists. now apply get_null.
    + now rewrite set_null.
Qed.

(** C7: with a null unit, [count()] is -1 on every object that a
    constructor returned and that went through any sequence of mutating
    members; every constructor returns, with that count, whatever count
    or flat vector it is given, and so does an assignment from any flat
    vector; [append] returns and leaves the whole object as it was. *)
Theorem null_unit_count
        (s : NAryState) (unit : U) (n : Z) (v : EigenType Scalar) :
  unit_size = 0 -> reachable NaN fresh s ->
  count s = -1 /\
  append fresh unit s = (s, Ok tt) /\
  (exists s0, NAryState_default = Ok s0 /\ count s0 = -1) /\
  (exists s0, NAryState_count NaN n = Ok s0 /\ count s0 = -1) /\
  (exists s0, NAryState_initial v = Ok s0 /\ count s0 = -1) /\
  snd (assign v s) = Ok tt /\ count (fst (assign v s)) = -1.
Proof.
  intros Hus Hreach. pose proof (reachable_inv Hreach) as Hs.
  pose proof Hs as (_ & _ & _ & Hc).
  split; [exact (Hc Hus) |].
  split; [now apply append_null |].
  split; [eexists; split; [now apply NAryState_default_null | reflexivity] |].
  split; [eexists; split; [now apply NAryState_count_null | reflexivity] |].
  split.
  { unfold NAryState_initial. rewrite unitCountFromRows_null by exact Hus.
    eexists; split; reflexivity. }
  now rewrite assign_null.
Qed.

(** C9: with a non-null unit, assigning a flat vector whose length is not
    a multiple of the unit size throws the domain error and leaves the
    object, count and buffer, exactly as it was; assigning one whose
    length is a multiple returns, the buffer is then the vector given and
    [count()] its length divided by the unit size. *)
Theorem assign_validates_first (s : NAryState) (rhs : EigenType Scalar) :
  0 < unit_size -> Eigen_ok rhs ->
  (rows rhs mod unit_size <> 0 ->
     assign rhs s = (s, Throw (domain_error what_non_multiple))) /\
  (rows rhs mod unit_size = 0 ->
     snd (assign rhs s) = Ok tt /\
     toEigen (fst (assign rhs s)) = rhs /\
     count (fst (assign rhs s)) = rows rhs / unit_size).
Proof.
  intros Hus Hv. split; intros Hm.
  - now apply assign_non_multiple.
  - now rewrite assign_multiple.
Qed.

(** C10: the block that [get(i)] and [set(i, unit)] address lies inside
    the buffer.  With a non-null unit and [i < count()] its first row is
    [i * unit_size], without wrap-around, and its last row is below
    [size()]; with a null unit it is the empty block at row 0.  Neither
    member runs into the dense vector's range assertion. *)
Theorem block_access_in_bounds (s : NAryState) (i : Z) (unit : U) :
  inv s -> is_size_t i ->
  (0 < unit_size -> i < count s ->
     row0_of s i = i * unit_size /\
     0 <= row0_of s i /\
     row0_of s i + unit_size_ s <= size s) /\
  (unit_size = 0 -> row0_of s i = 0 /\ unit_size_ s = 0) /\
  (index_ok s i = true ->
     block_in_range (combined_vector_ s) (to_ptrdiff_t (row0_of s i))
                    (to_ptrdiff_t (unit_size_ s)) = true) /\
  get s i <> Throw assertion_failed /\
  snd (set i unit s) <> Throw assertion_failed.
Proof.
  intros Hs Hi. pose proof unit_size_range as Hr.
  pose proof Hs as (Eus & Hok & _).
  pose proof (rows_nonneg (combined_vector_ s)) as Hv.
  assert (Hnn : 0 < unit_size -> i < count s ->
                row0_of s i = i * unit_size /\
                0 <= row0_of s i /\
                row0_of s i + unit_size_ s <= size s).
  { intros Hus Hlt.
    assert (Hi' : 0 <= i < count_ s) by (unfold is_size_t, count in *; lia).
    destruct (row0_of_in_range Hus Hs Hi') as (Er & H0 & H1).
    unfold size. rewrite rows_is_size_t by exact Hok.
    rewrite Er, Eus. auto. }
  split; [exact Hnn |].
  split; [intros Hus; split; [now apply row0_of_null | congruence] |].
  split.
  { intros Hchk. unfold block_in_range.
    destruct (Z.eq_dec unit_size 0) as [Hus | Hus].
    - rewrite row0_of_null, Eus, Hus by assumption.
      change (to_ptrdiff_t 0) with 0.
      repeat (apply andb_true_intro; split); apply Z.leb_le; lia.
    - assert (Hus' : 0 < unit_size) by lia.
      rewrite index_ok_non_null in Hchk by assumption.
      apply Z.ltb_lt in Hchk.
      destruct (Hnn Hus' Hchk) as (Er & H0 & H1).
      unfold size in H1. rewrite rows_is_size_t in H1 by exact Hok.
      unfold Eigen_ok in Hok.
      rewrite !to_ptrdiff_t_small by (apply ptrdiff_nonneg; lia).
      repeat (apply andb_true_intro; split); apply Z.leb_le; lia. }
  destruct (Z.eq_dec unit_size 0) as [Hus | Hus].
  - rewrite (get_null i Hus Hs), (set_null i unit Hus Hs).
    split; discriminate.
  - assert (Hus' : 0 < unit_size) by lia.
    destruct (Z_lt_le_dec i (count_ s)) as [Hlt | Hge].
    + assert (Hi' : 0 <= i < count_ s) by (unfold is_size_t in *; lia).
      destruct (get_in_range Hus' Hs Hi') as (a & b & c & Ev & Ea & Eb & Eg).
      rewrite Eg, (@set_pieces _ _ _ s i unit a b c Hus' Hs Ev Ea Eb).
      split; discriminate.
    + rewrite get_out_of_range, set_out_of_range by assumption.
      split; discriminate.
Qed.

End Contract.

(** ** Flattening *)

Section Flattening.

Context {Scalar U : Type} `{UV : UnitVector Scalar U}.

(** A vector of [c * n] rows is [c] blocks of [n] rows, block [k]
    starting at row [k * n]. *)
Lemma blocks_of_vector (n : Z) (c : nat) :
  forall v : EigenType Scalar,
    0 <= n -> rows v = Z.of_nat c * n ->
    exists blocks : list (EigenType Scalar),
      length blocks = c /\
      Forall (fun b => rows b = n) blocks /\
      concat blocks = v /\
      forall k, (k < c)%nat ->
        exists a rest, v = a ++ nth k blocks [] ++ rest /\
                       rows a = Z.of_nat k * n.
Proof.
  induction c as [| c IH]; intros v Hn Hv.
  - exists []. destruct v; [| unfold rows in Hv; cbn in Hv; lia].
    repeat split; [constructor | intros k Hk; lia].
  - assert (H1 : 0 + n <= rows v) by lia.
    destruct (pieces_of_block v (Z.le_refl 0) Hn H1)
      as (a0 & b & w & Ev & Ea0 & Eb).
    destruct a0; [| unfold rows in Ea0; cbn in Ea0; lia].
    cbn [app] in Ev.
    assert (Hw : rows w = Z.of_nat c * n)
      by (rewrite Ev, rows_app, Eb in Hv; lia).
    destruct (IH w Hn Hw) as (blocks & Hlen & Hall & Hcat & Hnth).
    exists (b :: blocks). repeat split.
    + cbn [length]. now rewrite Hlen.
    + now constructor.
    + cbn [concat]. now rewrite Hcat.
    + intros [| k] Hk.
      * exists [], w. split; [exact Ev | unfold rows; cbn; lia].
      * destruct (Hnth k) as (a & rest & Ew & Ea); [lia |].
        exists (b ++ a), rest. cbn [nth]. split.
        -- rewrite Ev, Ew at 1. now rewrite <- app_assoc.
        -- rewrite rows_app, Eb, Ea. lia.
Qed.

(** The buffer of an object with a non-null unit is the concatenation of
    the units that [get] returns, in index order. *)
Lemma toEigen_concat (s : NAryState) :
  0 < unit_size -> inv s ->
  exists units : list U,
    Z.of_nat (length units) = count s /\
    (forall k, (k < length units)%nat ->
               get s (Z.of_nat k) = Ok (nth k units unit_default)) /\
    toEigen s = concat (map unit_toEigen units).
Proof.
  intros Hus Hs. pose proof Hs as (_ & _ & Hc & _).
  destruct (Hc Hus) as [Hc0 Hrows].
  rewrite <- (Z2Nat.id (count_ s)) in Hrows by exact Hc0.
  destruct (blocks_of_vector (Z.to_nat (count_ s)) (combined_vector_ s)
                             (Z.lt_le_incl _ _ Hus) Hrows)
    as (blocks & Hlen & Hall & Hcat & Hnth).
  exists (map unit_fromEigen blocks). rewrite length_map, Hlen.
  split; [unfold count; lia |]. split.
  - intros k Hk. destruct (Hnth k Hk) as (a & rest & Ev & Ea).
    assert (Eb : rows (nth k blocks []) = unit_size).
    { rewrite Forall_forall in Hall. apply Hall, nth_In. lia. }
    rewrite (@get_pieces _ _ _ s (Z.of_nat k) a _ rest Hus Hs Ev Ea Eb).
    f_equal.
    rewrite <- (map_nth unit_fromEigen).
    apply nth_indep. rewrite length_map. lia.
  - unfold toEigen. rewrite <- Hcat at 1. f_equal.
    rewrite map_map. clear - Hall.
    induction Hall as [| b blocks Hb Hall IH]; [reflexivity |].
    cbn [map]. rewrite <- IH. f_equal. symmetry.
    apply unit_to_from. now rewrite <- unit_size_rows.
Qed.

End Flattening.


(** ** Flattening, and the specification's example *)

(** C2: flattening returns the buffer as it is, [size()] is its row count,
    and with a non-null unit the buffer is the concatenation, in index
    order, of the flattened units that [get] returns.  With a unit of three
    rows, after [append([1,2,3])] and [append([4,5,6])] on a
    default-constructed object, flattening yields [1,2,3,4,5,6],
    [size() == 6], [get(0) == [1,2,3]] and [get(1) == [4,5,6]]. *)
Theorem flattening_is_concatenation :
  (forall (Scalar U : Type) (UV : UnitVector Scalar U) (s : NAryState),
      0 < unit_size -> inv s ->
      toEigen s = combined_vector_ s /\
      size s = rows (combined_vector_ s) /\
      exists units : list U,
        Z.of_nat (length units) = count s /\
        (forall k, (k < length units)%nat ->
                   get s (Z.of_nat k) = Ok (nth k units unit_default)) /\
        toEigen s = concat (map unit_toEigen units)) /\
  (forall fresh : double,
      exists s0 s1 s2 : NAryState,
        NAryState_default (UV := Vec3_UnitVector) = Ok s0 /\
        append fresh (vec3 1 2 3) s0 = (s1, Ok tt) /\
        append fresh (vec3 4 5 6) s1 = (s2, Ok tt) /\
        toEigen s2 = map d [1; 2; 3; 4; 5; 6] /\
        size s2 = 6 /\ count s2 = 2 /\
        get s2 0 = Ok (vec3 1 2 3) /\
        get s2 1 = Ok (vec3 4 5 6)).
Proof.
  split.
  - intros Scalar U UV s Hus Hs.
    split; [reflexivity |].
    split; [unfold size; apply rows_is_size_t, Hs |].
    now apply toEigen_concat.
  - intros fresh. do 3 eexists.
    repeat split; vm_compute; reflexivity.
Qed.

(** * Worked examples *)

Ltac by_computation :=
  vm_compute; repeat split; intros; easy.

Lemma empty3_inv : inv (UV := Vec3_UnitVector) empty3.
Proof. by_computation. Qed.

Lemma two_units_inv : inv (UV := Vec3_UnitVector) two_units.
Proof. by_computation. Qed.

Lemma two_units_reachable :
  reachable (UV := Vec3_UnitVector) NAN NAN two_units.
Proof.
  unfold two_units. apply reach_append, reach_append, reach_default.
  reflexivity.
Qed.

(** C1 at the object of the specification's example. *)
Lemma length_invariant_witness :
  rows (toEigen two_units) = count two_units * unit_size (UV := Vec3_UnitVector)
  /\ size two_units = count two_units * unit_size (UV := Vec3_UnitVector)
  /\ 0 <= count two_units.
Proof.
  apply (@length_invariant double Vec3 Vec3_UnitVector NAN NAN two_units).
  - reflexivity.
  - exact two_units_reachable.
Defined.

(** C2 at the object of the specification's example. *)
Lemma flattening_witness :
  size two_units = rows (combined_vector_ two_units) /\
  exists units : list Vec3,
    Z.of_nat (length units) = count two_units /\
    (forall k, (k < length units)%nat ->
               get two_units (Z.of_nat k) = Ok (nth k units unit_default)) /\
    toEigen two_units = concat (map unit_toEigen units).
Proof.
  destruct flattening_is_concatenation as [Hgeneral _].
  apply (Hgeneral double Vec3 Vec3_UnitVector two_units).
  - reflexivity.
  - exact two_units_inv.
Defined.

(** C3 on a unit of three rows: six rows are two units, seven rows are
    refused, two units are six rows, and a negative count is refused. *)
Lemma codec_witness :
  unitCountFromRows (UV := Vec3_UnitVector) 6 = Ok 2 /\
  unitCountFromRows (UV := Vec3_UnitVector) 7
  = Throw (domain_error what_non_multiple) /\
  rowsFromUnitCount (UV := Vec3_UnitVector) 2 = Ok 6 /\
  rowsFromUnitCount (UV := Vec3_UnitVector) (-2)
  = Throw (domain_error what_negative_count).
Proof.
  assert (H6 : is_size_t 6) by by_computation.
  assert (H7 : is_size_t 7) by by_computation.
  assert (H2 : is_ptrdiff_t 2) by by_computation.
  assert (Hm : is_ptrdiff_t (-2)) by by_computation.
  destruct (@codec_both_directions double Vec3 Vec3_UnitVector 6 2 H6 H2)
    as (Hcount & _ & _ & Hrows & _).
  destruct (@codec_both_directions double Vec3 Vec3_UnitVector 7 (-2) H7 Hm)
    as (_ & Hrefused & _ & _ & _ & Hnegative).
  split; [| split; [| split]].
  - apply Hcount; by_computation.
  - apply Hrefused; by_computation.
  - apply Hrows; by_computation.
  - apply Hnegative; by_computation.
Defined.

(** C3 as stated fails at both ends of the codec.  For 2^62 units of four
    rows [rowsFromUnitCount] returns 0, not the product 2^64; for 2^63 rows
    of a one-row unit [unitCountFromRows] returns -2^63, not the quotient
    2^63. *)
Lemma codec_wraps :
  (is_ptrdiff_t two_to_62 /\ 0 <= two_to_62 /\
   rowsFromUnitCount (UV := Vec4_UnitVector) two_to_62 = Ok 0 /\
   Ok 0 <> Ok (two_to_62 * unit_size (UV := Vec4_UnitVector))) /\
  (is_size_t two_to_63 /\ 0 < unit_size (UV := Vec1_UnitVector) /\
   two_to_63 mod unit_size (UV := Vec1_UnitVector) = 0 /\
   unitCountFromRows (UV := Vec1_UnitVector) two_to_63 = Ok PTRDIFF_MIN /\
   Ok PTRDIFF_MIN <> Ok (two_to_63 / unit_size (UV := Vec1_UnitVector))).
Proof. by_computation. Qed.

(** C4 on the default-constructed object of the specification's example. *)
Lemma append_then_get_witness :
  toEigen (fst (append NAN (vec3 1 2 3) empty3)) = map d [1; 2; 3] /\
  count (fst (append NAN (vec3 1 2 3) empty3)) = count empty3 + 1 /\
  exists u : Vec3,
    get (fst (append NAN (vec3 1 2 3) empty3))
        (count (fst (append NAN (vec3 1 2 3) empty3)) - 1) = Ok u /\
    unit_toEigen u = unit_toEigen (vec3 1 2 3).
Proof.
  destruct (@append_then_get double Vec3 Vec3_UnitVector NAN empty3
                             (vec3 1 2 3))
    as (_ & Hrows & _ & _ & Hcount & Hget).
  - reflexivity.
  - exact empty3_inv.
  - by_computation.
  - split; [exact Hrows | split; [exact Hcount | exact Hget]].
Defined.

(** C5 on the object of the specification's example: unit 0 is
    overwritten, unit 1 is read as before. *)
Lemma set_then_get_witness :
  snd (set 0 (vec3 7 8 9) two_units) = Ok tt /\
  (exists u : Vec3, get (fst (set 0 (vec3 7 8 9) two_units)) 0 = Ok u /\
             unit_toEigen u = unit_toEigen (vec3 7 8 9)) /\
  get (UV := Vec3_UnitVector) (fst (set 0 (vec3 7 8 9) two_units)) 1
  = get (UV := Vec3_UnitVector) two_units 1 /\
  count (fst (set 0 (vec3 7 8 9) two_units)) = count two_units.
Proof.
  destruct (@set_then_get double Vec3 Vec3_UnitVector two_units 0 1
                          (vec3 7 8 9))
    as (Hret & Hget & Hframe & Hcount).
  - exact two_units_inv.
  - by_computation.
  - by_computation.
  - reflexivity.
  - reflexivity.
  - split; [exact Hret | split; [exact Hget | split; [| exact Hcount]]].
    apply Hframe. discriminate.
Defined.

(** C6 on the object of the specification's example: index 2 is refused,
    index 1 is served. *)
Lemma bound_check_witness :
  (get (UV := Vec3_UnitVector) two_units 2
   = Throw (out_of_range what_get_set) /\
   snd (set 2 (vec3 7 8 9) two_units) = Throw (out_of_range what_get_set)) /\
  ((exists u : Vec3, get two_units 1 = Ok u) /\
   snd (set 1 (vec3 7 8 9) two_units) = Ok tt).
Proof.
  assert (H2 : is_size_t 2) by by_computation.
  assert (H1 : is_size_t 1) by by_computation.
  destruct (@bound_check double Vec3 Vec3_UnitVector two_units 2
                         (vec3 7 8 9) two_units_inv H2)
    as (Hrefused & _).
  destruct (@bound_check double Vec3 Vec3_UnitVector two_units 1
                         (vec3 7 8 9) two_units_inv H1)
    as (_ & Hserved & _).
  split.
  - apply Hrefused; by_computation.
  - apply Hserved; by_computation.
Defined.

Lemma empty0_reachable :
  reachable (UV := NullVector_UnitVector) NAN NAN empty0.
Proof. apply reach_default. reflexivity. Qed.

(** C7 on the default-constructed container of null units. *)
Lemma null_unit_count_witness :
  count empty0 = -1 /\
  append (UV := NullVector_UnitVector) NAN null_vector empty0
  = (empty0, Ok tt) /\
  (exists s0, NAryState_count (UV := NullVector_UnitVector) NAN 5 = Ok s0 /\
              count s0 = -1) /\
  (exists s0, NAryState_initial (UV := NullVector_UnitVector) seven_rows
              = Ok s0 /\ count s0 = -1) /\
  count (fst (assign (UV := NullVector_UnitVector) seven_rows empty0)) = -1.
Proof.
  destruct (@null_unit_count double NullVector NullVector_UnitVector NAN NAN
                             empty0 null_vector 5 seven_rows)
    as (Hcount & Happend & _ & Hsized & Hflat & _ & Hassign).
  - reflexivity.
  - exact empty0_reachable.
  - split; [exact Hcount | split; [exact Happend |]].
    split; [exact Hsized | split; [exact Hflat | exact Hassign]].
Defined.

(** C8 on a unit of three rows and a requested count of two. *)
Lemma sized_construction_witness :
  exists s,
    NAryState_count (UV := Vec3_UnitVector) NAN 2 = Ok s /\
    count s = 2 /\ size s = 2 * unit_size (UV := Vec3_UnitVector) /\
    toEigen s = repeat NAN (Z.to_nat (2 * unit_size (UV := Vec3_UnitVector))).
Proof.
  assert (H2 : is_ptrdiff_t 2) by by_computation.
  destruct (@sized_construction double Vec3 Vec3_UnitVector NAN 2 H2)
    as (_ & Hsized & _).
  apply Hsized; by_computation.
Defined.

(** C8 as stated fails for 2^62 units of four rows: the construction
    returns, with [count() == 0] and no row at all.  For 2^62 units of
    three rows the row count is computed without wrap-around, but it is
    not an [Eigen::Index] and no object is constructed. *)
Lemma sized_construction_wraps :
  (is_ptrdiff_t two_to_62 /\
   0 < unit_size (UV := Vec4_UnitVector) /\
   0 <= two_to_62 /\
   NAryState_count (UV := Vec4_UnitVector) NAN two_to_62
   = Ok {| unit_size_ := 4; count_ := 0; combined_vector_ := [] |} /\
   count {| unit_size_ := 4; count_ := 0;
            combined_vector_ := @nil double |} <> two_to_62 /\
   size {| unit_size_ := 4; count_ := 0; combined_vector_ := @nil double |}
   <> two_to_62 * unit_size (UV := Vec4_UnitVector)) /\
  (0 < unit_size (UV := Vec3_UnitVector) /\
   two_to_62 * unit_size (UV := Vec3_UnitVector) <= SIZE_MAX /\
   NAryState_count (UV := Vec3_UnitVector) NAN two_to_62 = Throw bad_alloc).
Proof. by_computation. Qed.

(** C9 on the object of the specification's example: seven rows are not a
    multiple of three, and the object is left as it was. *)
Lemma assign_validates_first_witness :
  assign (UV := Vec3_UnitVector) seven_rows two_units
  = (two_units, Throw (domain_error what_non_multiple)) /\
  toEigen (fst (assign (UV := Vec3_UnitVector) (map d [7; 8; 9]) two_units))
  = map d [7; 8; 9] /\
  count (fst (assign (UV := Vec3_UnitVector) (map d [7; 8; 9]) two_units))
  = 3 / unit_size (UV := Vec3_UnitVector).
Proof.
  destruct (@assign_validates_first double Vec3 Vec3_UnitVector two_units
                                    seven_rows)
    as (Hrefused & _); [reflexivity | by_computation |].
  destruct (@assign_validates_first double Vec3 Vec3_UnitVector two_units
                                    (map d [7; 8; 9]))
    as (_ & Haccepted); [reflexivity | by_computation |].
  split.
  - apply Hrefused. by_computation.
  - apply Haccepted. reflexivity.
Defined.

(** C10 on the object of the specification's example: unit 1 is rows 3 to
    5 of the six. *)
Lemma block_access_in_bounds_witness :
  (row0_of two_units 1 = 1 * unit_size (UV := Vec3_UnitVector) /\
   0 <= row0_of two_units 1 /\
   row0_of two_units 1 + unit_size_ two_units <= size two_units) /\
  get (UV := Vec3_UnitVector) two_units 1 <> Throw assertion_failed /\
  snd (set (UV := Vec3_UnitVector) 1 (vec3 7 8 9) two_units)
  <> Throw assertion_failed.
Proof.
  assert (H1 : is_size_t 1) by by_computation.
  destruct (@block_access_in_bounds double Vec3 Vec3_UnitVector two_units 1
                                    (vec3 7 8 9) two_units_inv H1)
    as (Hblock & _ & _ & Hget & Hset).
  split; [| split; [exact Hget | exact Hset]].
  apply Hblock; by_computation.
Defined.

(** * Further properties of the container *)

Section Construction_more.

Context {Scalar U : Type} `{UV : UnitVector Scalar U}.
Variables NaN fresh : Scalar.

Lemma NAryState_eta (s : NAryState (Scalar := Scalar)) :
  {| unit_size_ := unit_size_ s; count_ := count_ s;
     combined_vector_ := combined_vector_ s |} = s.
Proof. now destruct s. Qed.

(** The count that the invariant ties to a buffer. *)
Lemma unitCountFromRows_of_inv (s : NAryState) :
  inv s -> unitCountFromRows (rows (combined_vector_ s)) = Ok (count_ s).
Proof.
  intros (Eus & Hok & Hc & Hnull). pose proof unit_size_range as Hr.
  destruct (Z.eq_dec unit_size 0) as [Hus | Hus].
  - rewrite unitCountFromRows_null by exact Hus. now rewrite Hnull.
  - destruct Hc as [Hc0 Hrows]; [lia |].
    rewrite <- (rows_is_size_t Hok) at 1.
    rewrite unitCountFromRows_vector; try assumption; try lia.
    + now rewrite Hrows, Z.div_mul.
    + rewrite Hrows. apply Z.mod_mul. exact Hus.
Qed.

(** Default construction never throws.  The object has no row; its count
    is 0 for a non-null unit and -1 for a null unit; with a non-null unit
    [get] refuses every index. *)
Theorem default_construction :
  exists s : NAryState,
    NAryState_default = Ok s /\
    inv s /\
    toEigen s = [] /\ size s = 0 /\
    (0 < unit_size -> count s = 0) /\
    (unit_size = 0 -> count s = -1) /\
    (0 < unit_size ->
     forall i, is_size_t i -> get s i = Throw (out_of_range what_get_set)).
Proof.
  pose proof unit_size_range as Hr.
  destruct (Z.eq_dec unit_size 0) as [Hus | Hus].
  - eexists. split; [now apply NAryState_default_null |].
    split; [apply NAryState_default_inv; now apply NAryState_default_null |].
    repeat split; intros; try lia.
  - assert (Hus' : 0 < unit_size) by lia.
    assert (Hs : inv {| unit_size_ := unit_size; count_ := 0;
                        combined_vector_ := @nil Scalar |})
      by (apply NAryState_default_inv; now apply NAryState_default_non_null).
    eexists. split; [now apply NAryState_default_non_null |].
    split; [exact Hs |].
    repeat split; intros; try lia.
    apply get_out_of_range; try assumption.
    unfold is_size_t in *. cbn [count_]. lia.
Qed.

(** Construction from a flat vector, with a non-null unit: a length that
    is not a multiple of the unit size throws the domain error and there is
    no object; a length that is a multiple gives an object that holds the
    vector as it is, with [count()] the length divided by the unit size. *)
Theorem construction_from_flat (initial : EigenType Scalar) :
  0 < unit_size -> Eigen_ok initial ->
  (rows initial mod unit_size <> 0 ->
     NAryState_initial initial = Throw (domain_error what_non_multiple)) /\
  (rows initial mod unit_size = 0 ->
     exists s, NAryState_initial initial = Ok s /\
               inv s /\
               toEigen s = initial /\
               size s = rows initial /\
               count s = rows initial / unit_size).
Proof.
  intros Hus Hv. unfold NAryState_initial. split; intros Hm.
  - rewrite rows_is_size_t by exact Hv.
    now rewrite unitCountFromRows_non_multiple.
  - rewrite unitCountFromRows_vector by assumption. cbn [rbind].
    eexists. split; [reflexivity |].
    split.
    { apply inv_intro; [reflexivity | exact Hv |].
      rewrite <- (rows_is_size_t Hv) at 1.
      now apply unitCountFromRows_vector. }
    unfold toEigen, size, count. cbn [combined_vector_ count_].
    repeat split. now apply rows_is_size_t.
Qed.

(** Flattening and building back: constructing from the flattening of an
    object gives that object, and assigning the flattening of an object to
    any other object makes the latter equal to the former. *)
Theorem flatten_then_build (s s0 : NAryState) :
  inv s -> inv s0 ->
  NAryState_initial (toEigen s) = Ok s /\
  assign (toEigen s) s0 = (s, Ok tt).
Proof.
  intros Hs Hs0. pose proof Hs as (Eus & Hok & _).
  pose proof Hs0 as (Eus0 & _).
  pose proof (unitCountFromRows_of_inv Hs) as Ec.
  unfold toEigen. split.
  - unfold NAryState_initial. rewrite rows_is_size_t by exact Hok.
    rewrite Ec. cbn [rbind]. rewrite <- Eus. now rewrite NAryState_eta.
  - unfold assign, mbind, lift, store_count, store_vector.
    rewrite rows_is_size_t by exact Hok. rewrite Ec.
    cbn [unit_size_ count_ combined_vector_].
    rewrite Eus0, <- Eus. now rewrite NAryState_eta.
Qed.


(** The two directions of the codec undo each other wherever no
    wrap-around occurs; with a null unit every count is sent to -1 and
    every row count to 0. *)
Theorem codec_round_trip (r n : Z) :
  is_size_t r -> is_ptrdiff_t n ->
  (0 < unit_size -> 0 <= n -> n * unit_size <= SIZE_MAX ->
     (k <- rowsFromUnitCount n ;; unitCountFromRows k) = Ok n) /\
  (0 < unit_size -> r mod unit_size = 0 -> r / unit_size <= PTRDIFF_MAX ->
     (c <- unitCountFromRows r ;; rowsFromUnitCount c) = Ok r) /\
  (unit_size = 0 ->
     (k <- rowsFromUnitCount n ;; unitCountFromRows k) = Ok (-1) /\
     (c <- unitCountFromRows r ;; rowsFromUnitCount c) = Ok 0).
Proof.
  intros Hr Hn. split; [| split].
  - intros Hus H0 Hle.
    rewrite rowsFromUnitCount_nonneg by assumption.
    rewrite to_size_t_small by (unfold is_size_t; split; [nia | lia]).
    cbn [rbind].
    rewrite unitCountFromRows_multiple;
      [| exact Hus | apply Z.mod_mul; lia].
    rewrite Z.div_mul by lia. now rewrite to_ptrdiff_t_small.
  - intros Hus Hm Hle.
    assert (Hq : 0 <= r / unit_size)
      by (apply Z.div_pos; unfold is_size_t in Hr; lia).
    rewrite unitCountFromRows_multiple by assumption.
    rewrite to_ptrdiff_t_small by (apply ptrdiff_nonneg; lia).
    cbn [rbind].
    rewrite rowsFromUnitCount_nonneg by (try apply ptrdiff_nonneg; lia).
    assert (E : r / unit_size * unit_size = r).
    { rewrite Z.mul_comm. symmetry. apply Z.div_exact; lia. }
    rewrite E. now rewrite to_size_t_small.
  - intros Hus. split.
    + rewrite rowsFromUnitCount_null by exact Hus. cbn [rbind].
      now apply unitCountFromRows_null.
    + rewrite unitCountFromRows_null by exact Hus. cbn [rbind].
      now apply rowsFromUnitCount_null.
Qed.

End Construction_more.

Section Members_more.

Context {Scalar U : Type} `{UV : UnitVector Scalar U}.
Variables NaN fresh : Scalar.


(** [append] leaves every unit that was there as [get] reads it. *)
Theorem append_keeps_units (s : NAryState) (v : U) (j : Z) :
  0 < unit_size -> inv s ->
  Eigen_ok (combined_vector_ s ++ unit_toEigen v) ->
  0 <= j < count s ->
  get (fst (append fresh v s)) j = get s j.
Proof.
  intros Hus Hs Hfit Hj.
  pose proof (append_inv fresh v Hs) as Hs'.
  unfold Eigen_ok in Hfit. rewrite rows_app, unit_toEigen_rows in Hfit.
  rewrite append_non_null in * by assumption. cbn [fst] in *.
  destruct (get_in_range Hus Hs Hj) as (a & b & c & Ev & Ea & Eb & Eg).
  rewrite Eg.
  apply (get_pieces j a b (c ++ unit_toEigen v)); try assumption.
  cbn [combined_vector_]. rewrite Ev, <- !app_assoc. reflexivity.
Qed.

(** Writing back the unit that [get(i)] returned changes nothing. *)
Theorem set_what_get_returned (s : NAryState) (i : Z) (u : U) :
  inv s -> is_size_t i -> get s i = Ok u -> set i u s = (s, Ok tt).
Proof.
  intros Hs Hi Hget. pose proof unit_size_range as Hr.
  destruct (Z.eq_dec unit_size 0) as [Hus | Hus].
  { now apply set_null. }
  assert (Hus' : 0 < unit_size) by lia.
  destruct (Z_lt_le_dec i (count_ s)) as [Hlt | Hge].
  - assert (Hi' : 0 <= i < count_ s) by (unfold is_size_t in Hi; lia).
    destruct (get_in_range Hus' Hs Hi') as (a & b & c & Ev & Ea & Eb & Eg).
    rewrite Eg in Hget. injection Hget as <-.
    rewrite (set_pieces i (unit_fromEigen b) a b c Hus' Hs Ev Ea Eb).
    rewrite unit_to_from by (now rewrite <- unit_size_rows).
    rewrite <- Ev. now rewrite NAryState_eta.
  - rewrite get_out_of_range in Hget by assumption. discriminate.
Qed.

(** Two in-range blocks at different units cut the buffer in five. *)
Lemma pieces_of_two_blocks (s : NAryState) (i j : Z) :
  0 < unit_size -> inv s -> 0 <= i -> i < j -> j < count_ s ->
  exists a bi m bj c,
    combined_vector_ s = a ++ bi ++ m ++ bj ++ c /\
    rows a = i * unit_size /\ rows bi = unit_size /\
    rows (a ++ bi ++ m) = j * unit_size /\ rows bj = unit_size.
Proof.
  intros Hus Hs H0 Hij Hj. pose proof unit_size_range as Hr.
  assert (Hi : 0 <= i < count_ s) by lia.
  destruct (get_in_range Hus Hs Hi) as (a & bi & w & Ev & Ea & Eb & _).
  pose proof Hs as (_ & _ & Hc & _). destruct (Hc Hus) as [_ Hrows].
  rewrite Ev, !rows_app, Ea, Eb in Hrows.
  assert (H1 : 0 <= (j - i - 1) * unit_size) by nia.
  assert (H2 : (j - i - 1) * unit_size + unit_size <= rows w) by nia.
  destruct (pieces_of_block w H1 (proj1 Hr) H2) as (m & bj & c & Ew & Em & Ebj).
  exists a, bi, m, bj, c. rewrite Ev, Ew.
  repeat split; try assumption.
  rewrite !rows_app, Ea, Eb, Em. lia.
Qed.

Lemma set_two_units (s : NAryState) (i j : Z) (v w : U) :
  0 < unit_size -> inv s -> 0 <= i -> i < j -> j < count_ s ->
  fst (set i v (fst (set j w s))) = fst (set j w (fst (set i v s))).
Proof.
  intros Hus Hs H0 Hij Hj.
  destruct (pieces_of_two_blocks Hus Hs H0 Hij Hj)
    as (a & bi & m & bj & c & Ev & Ea & Ebi & Eam & Ebj).
  assert (Hsi : is_size_t i /\ is_size_t j).
  { pose proof (count_range Hus Hs). unfold_limits. lia. }
  pose proof (set_inv v Hs (proj1 Hsi)) as Hinv_i.
  pose proof (set_inv w Hs (proj2 Hsi)) as Hinv_j.
  assert (Ev2 : combined_vector_ s = (a ++ bi ++ m) ++ bj ++ c)
    by (rewrite Ev, <- !app_assoc; reflexivity).
  rewrite (set_pieces i v a bi (m ++ bj ++ c) Hus Hs Ev Ea Ebi) in *.
  rewrite (set_pieces j w (a ++ bi ++ m) bj c Hus Hs Ev2 Eam Ebj) in *.
  cbn [fst] in *.
  erewrite (set_pieces i v a bi (m ++ unit_toEigen w ++ c) Hus Hinv_j);
    [| cbn [combined_vector_]; rewrite <- !app_assoc; reflexivity
     | exact Ea | exact Ebi].
  erewrite (set_pieces j w (a ++ unit_toEigen v ++ m) bj c Hus Hinv_i);
    [| cbn [combined_vector_]; rewrite <- !app_assoc; reflexivity
     | rewrite !rows_app, unit_toEigen_rows in *; lia | exact Ebj].
  cbn [fst unit_size_ count_ combined_vector_].
  now rewrite <- !app_assoc.
Qed.

(** The last [set] at an index wins, and [set]s at different indices can
    be done in either order. *)
Theorem set_twice (s : NAryState) (i j : Z) (v w : U) :
  inv s -> is_size_t i -> is_size_t j ->
  (0 < unit_size -> i < count s) ->
  (0 < unit_size -> j < count s) ->
  fst (set i w (fst (set i v s))) = fst (set i w s) /\
  (i <> j ->
   fst (set i v (fst (set j w s))) = fst (set j w (fst (set i v s)))).
Proof.
  intros Hs Hi Hj Hic Hjc. pose proof unit_size_range as Hr.
  destruct (Z.eq_dec unit_size 0) as [Hus | Hus].
  { rewrite ?(set_null i v Hus Hs), ?(set_null i w Hus Hs),
      ?(set_null j w Hus Hs). cbn [fst].
    rewrite ?(set_null i v Hus Hs), ?(set_null i w Hus Hs),
      ?(set_null j w Hus Hs). auto. }
  assert (Hus' : 0 < unit_size) by lia.
  specialize (Hic Hus'). specialize (Hjc Hus'). unfold count in *.
  split.
  - assert (Hi' : 0 <= i < count_ s) by (unfold is_size_t in Hi; lia).
    destruct (get_in_range Hus' Hs Hi') as (a & b & c & Ev & Ea & Eb & _).
    pose proof (set_inv v Hs Hi) as Hinv.
    rewrite (set_pieces i v a b c Hus' Hs Ev Ea Eb) in *.
    rewrite (set_pieces i w a b c Hus' Hs Ev Ea Eb).
    cbn [fst] in *.
    now rewrite (set_pieces i w a (unit_toEigen v) c Hus' Hinv eq_refl Ea
                            (unit_toEigen_rows v)).
  - intros Hne. unfold is_size_t in *.
    destruct (Z_lt_le_dec i j) as [Hlt | Hge].
    + apply set_two_units; assumption || lia.
    + symmetry. apply set_two_units; assumption || lia.
Qed.

End Members_more.

Section Sequences.

Context {Scalar U : Type} `{UV : UnitVector Scalar U}.
Variables NaN fresh : Scalar.

Lemma rows_concat_units (units : list U) :
  rows (concat (map unit_toEigen units)) = Z.of_nat (length units) * unit_size.
Proof.
  induction units as [| u units IH]; [reflexivity |].
  cbn [map concat length]. rewrite rows_app, IH, unit_toEigen_rows. lia.
Qed.

Lemma concat_units_at (units : list U) :
  forall k, (k < length units)%nat ->
    concat (map unit_toEigen units)
    = concat (map unit_toEigen (firstn k units))
        ++ unit_toEigen (nth k units unit_default)
        ++ concat (map unit_toEigen (skipn (S k) units)).
Proof.
  induction units as [| u units IH]; intros k Hk; [cbn in Hk; lia |].
  destruct k as [| k]; [reflexivity |].
  cbn [firstn skipn map concat nth].
  rewrite (IH k) at 1 by (cbn in Hk; lia).
  now rewrite <- app_assoc.
Qed.

(** Reading unit [k] of a run of flattened units that starts at a unit
    boundary. *)
Lemma get_of_concat (s : NAryState) (pre : EigenType Scalar)
      (units : list U) (m : Z) (k : nat) :
  0 < unit_size -> inv s ->
  combined_vector_ s = pre ++ concat (map unit_toEigen units) ->
  rows pre = m * unit_size -> (k < length units)%nat ->
  exists u, get s (m + Z.of_nat k) = Ok u /\
            unit_toEigen u = unit_toEigen (nth k units unit_default).
Proof.
  intros Hus Hs Ev Epre Hk.
  exists (unit_fromEigen (unit_toEigen (nth k units unit_default))).
  split; [| apply unit_to_from, unit_rows_fixed].
  apply (get_pieces (m + Z.of_nat k)
                    (pre ++ concat (map unit_toEigen (firstn k units)))
                    (unit_toEigen (nth k units unit_default))
                    (concat (map unit_toEigen (skipn (S k) units))));
    try assumption.
  - rewrite Ev, (@concat_units_at units k Hk) at 1.
    now rewrite <- app_assoc.
  - rewrite rows_app, Epre, rows_concat_units, length_firstn. lia.
  - apply unit_toEigen_rows.
Qed.

Lemma append_all_non_null (units : list U) :
  forall s : NAryState,
    0 < unit_size -> inv s ->
    Eigen_ok (combined_vector_ s ++ concat (map unit_toEigen units)) ->
    append_all fresh units s
    = ({| unit_size_ := unit_size_ s;
          count_ := count_ s + Z.of_nat (length units);
          combined_vector_ :=
            combined_vector_ s ++ concat (map unit_toEigen units) |},
       Ok tt).
Proof.
  induction units as [| u units IH]; intros s Hus Hs Hfit.
  - cbn [append_all map concat length]. unfold mret.
    rewrite app_nil_r, Z.add_0_r. now rewrite NAryState_eta.
  - cbn [append_all map concat length] in *. unfold mbind.
    assert (Hfit1 : Eigen_ok (combined_vector_ s ++ unit_toEigen u)).
    { unfold Eigen_ok in *. rewrite !rows_app in *.
      pose proof (rows_nonneg (concat (map unit_toEigen units))). lia. }
    pose proof (append_inv fresh u Hs) as Hs'.
    unfold Eigen_ok in Hfit1. rewrite rows_app, unit_toEigen_rows in Hfit1.
    rewrite append_non_null in * by assumption. cbn [fst] in Hs'.
    rewrite IH; try assumption.
    + cbn [unit_size_ count_ combined_vector_].
      assert (E : count_ s + 1 + Z.of_nat (length units)
                  = count_ s + Z.of_nat (S (length units))) by lia.
      rewrite E. now rewrite <- app_assoc.
    + cbn [combined_vector_]. now rewrite <- app_assoc.
Qed.

(** Appending a list of units in order, with a non-null unit: every call
    returns, the buffer gains the flattened units in that order, [count()]
    gains their number, and [get] at the [k]-th new index returns a unit
    with the components of the [k]-th one appended. *)
Theorem append_all_then_get (s : NAryState) (units : list U) :
  0 < unit_size -> inv s ->
  Eigen_ok (combined_vector_ s ++ concat (map unit_toEigen units)) ->
  let s' := fst (append_all fresh units s) in
  snd (append_all fresh units s) = Ok tt /\
  toEigen s' = toEigen s ++ concat (map unit_toEigen units) /\
  count s' = count s + Z.of_nat (length units) /\
  forall k, (k < length units)%nat ->
    exists u, get s' (count s + Z.of_nat k) = Ok u /\
              unit_toEigen u = unit_toEigen (nth k units unit_default).
Proof.
  intros Hus Hs Hfit s'. subst s'.
  rewrite append_all_non_null by assumption. cbn [fst snd].
  repeat split.
  intros k Hk.
  apply get_of_concat with (pre := combined_vector_ s); try assumption.
  - pose proof Hs as (Eus & _ & Hc & _). destruct (Hc Hus) as [Hc0 Hrows].
    unfold inv, Eigen_ok in *. cbn [unit_size_ count_ combined_vector_].
    rewrite rows_app, rows_concat_units in *.
    repeat split; try assumption; lia.
  - reflexivity.
  - pose proof Hs as (_ & _ & Hc & _). now destruct (Hc Hus).
Qed.

(** Construction from the concatenation of flattened units, with a
    non-null unit: it returns, [count()] is the number of units and
    [get(k)] returns a unit with the components of the [k]-th one. *)
Theorem construction_from_units (units : list U) :
  0 < unit_size -> Eigen_ok (concat (map unit_toEigen units)) ->
  exists s, NAryState_initial (concat (map unit_toEigen units)) = Ok s /\
            count s = Z.of_nat (length units) /\
            forall k, (k < length units)%nat ->
              exists u, get s (Z.of_nat k) = Ok u /\
                        unit_toEigen u
                        = unit_toEigen (nth k units unit_default).
Proof.
  intros Hus Hv.
  assert (Ec : unitCountFromRows (rows (concat (map unit_toEigen units)))
               = Ok (Z.of_nat (length units))).
  { rewrite <- (rows_is_size_t Hv) at 1.
    rewrite unitCountFromRows_vector; try assumption.
    - now rewrite rows_concat_units, Z.div_mul by lia.
    - rewrite rows_concat_units. apply Z.mod_mul. lia. }
  unfold NAryState_initial. rewrite rows_is_size_t by exact Hv.
  rewrite Ec. cbn [rbind]. eexists. split; [reflexivity |].
  split; [reflexivity |].
  intros k Hk.
  change (Z.of_nat k) with (0 + Z.of_nat k).
  apply get_of_concat with (pre := @nil Scalar); try assumption.
  - now apply inv_intro.
  - reflexivity.
  - reflexivity.
Qed.

(** Every unit of a sized construction reads as not-a-number throughout. *)
Theorem sized_units_are_NaN (n k : Z) :
  0 < unit_size -> 0 <= k < n -> n * unit_size <= PTRDIFF_MAX ->
  exists s u, NAryState_count NaN n = Ok s /\
              get s k = Ok u /\
              unit_toEigen u = repeat NaN (Z.to_nat unit_size).
Proof.
  intros Hus Hk Hle.
  assert (Hs : inv {| unit_size_ := unit_size; count_ := n;
                      combined_vector_ :=
                        repeat NaN (Z.to_nat (n * unit_size)) |}).
  { apply (NAryState_count_inv NaN n).
    apply NAryState_count_non_null; assumption || lia. }
  do 2 eexists. split; [apply NAryState_count_non_null; assumption || lia |].
  split.
  - apply (get_pieces k (repeat NaN (Z.to_nat (k * unit_size)))
                      (repeat NaN (Z.to_nat unit_size))
                      (repeat NaN (Z.to_nat ((n - k - 1) * unit_size))));
      try assumption.
    + cbn [combined_vector_]. rewrite <- !repeat_app. f_equal. nia.
    + rewrite rows_repeat. nia.
    + rewrite rows_repeat. lia.
  - apply unit_to_from. rewrite <- unit_size_rows, rows_repeat. lia.
Qed.

End Sequences.

(** ** Worked examples of the further properties *)

(** Seven rows are refused and three rows are one unit of three. *)
Lemma construction_from_flat_witness :
  NAryState_initial (UV := Vec3_UnitVector) seven_rows
  = Throw (domain_error what_non_multiple) /\
  exists s, NAryState_initial (UV := Vec3_UnitVector) (map d [7; 8; 9]) = Ok s
            /\ inv (UV := Vec3_UnitVector) s
            /\ toEigen s = map d [7; 8; 9]
            /\ size s = rows (map d [7; 8; 9])
            /\ count s = rows (map d [7; 8; 9])
                         / unit_size (UV := Vec3_UnitVector).
Proof.
  destruct (@construction_from_flat double Vec3 Vec3_UnitVector seven_rows)
    as (Hrefused & _); [reflexivity | by_computation |].
  destruct (@construction_from_flat double Vec3 Vec3_UnitVector
                                    (map d [7; 8; 9]))
    as (_ & Haccepted); [reflexivity | by_computation |].
  split.
  - apply Hrefused. by_computation.
  - apply Haccepted. reflexivity.
Defined.

Lemma flatten_then_build_witness :
  NAryState_initial (UV := Vec3_UnitVector) (toEigen two_units) = Ok two_units
  /\ assign (UV := Vec3_UnitVector) (toEigen two_units) empty3
     = (two_units, Ok tt).
Proof.
  exact (@flatten_then_build double Vec3 Vec3_UnitVector two_units empty3
                             two_units_inv empty3_inv).
Defined.


Lemma codec_round_trip_witness :
  (k <- rowsFromUnitCount (UV := Vec3_UnitVector) 2 ;;
   unitCountFromRows (UV := Vec3_UnitVector) k) = Ok 2 /\
  (c <- unitCountFromRows (UV := Vec3_UnitVector) 6 ;;
   rowsFromUnitCount (UV := Vec3_UnitVector) c) = Ok 6.
Proof.
  destruct (@codec_round_trip double Vec3 Vec3_UnitVector 6 2)
    as (Hcount & Hrows & _); [by_computation | by_computation |].
  split.
  - apply Hcount; by_computation.
  - apply Hrows; by_computation.
Defined.


Lemma append_keeps_units_witness :
  get (UV := Vec3_UnitVector) (fst (append NAN (vec3 7 8 9) two_units)) 1
  = get (UV := Vec3_UnitVector) two_units 1.
Proof.
  apply (@append_keeps_units double Vec3 Vec3_UnitVector NAN two_units
                             (vec3 7 8 9) 1).
  - reflexivity.
  - exact two_units_inv.
  - by_computation.
  - by_computation.
Defined.

Lemma set_what_get_returned_witness :
  set (UV := Vec3_UnitVector) 1 (vec3 4 5 6) two_units = (two_units, Ok tt).
Proof.
  apply (@set_what_get_returned double Vec3 Vec3_UnitVector two_units 1
                                (vec3 4 5 6)).
  - exact two_units_inv.
  - by_computation.
  - reflexivity.
Defined.

Lemma set_twice_witness :
  fst (set (UV := Vec3_UnitVector) 0 (vec3 7 8 9)
           (fst (set (UV := Vec3_UnitVector) 0 (vec3 1 1 1) two_units)))
  = fst (set (UV := Vec3_UnitVector) 0 (vec3 7 8 9) two_units) /\
  fst (set (UV := Vec3_UnitVector) 0 (vec3 1 1 1)
           (fst (set (UV := Vec3_UnitVector) 1 (vec3 7 8 9) two_units)))
  = fst (set (UV := Vec3_UnitVector) 1 (vec3 7 8 9)
             (fst (set (UV := Vec3_UnitVector) 0 (vec3 1 1 1) two_units))).
Proof.
  destruct (@set_twice double Vec3 Vec3_UnitVector two_units 0 0
                       (vec3 1 1 1) (vec3 7 8 9))
    as (Hlast & _);
    [exact two_units_inv | by_computation | by_computation
     | reflexivity | reflexivity |].
  destruct (@set_twice double Vec3 Vec3_UnitVector two_units 0 1
                       (vec3 1 1 1) (vec3 7 8 9))
    as (_ & Hswap);
    [exact two_units_inv | by_computation | by_computation
     | reflexivity | reflexivity |].
  split; [exact Hlast | apply Hswap; discriminate].
Defined.

Lemma append_all_then_get_witness :
  snd (append_all (UV := Vec3_UnitVector) NAN units_123_456 empty3) = Ok tt /\
  toEigen (fst (append_all (UV := Vec3_UnitVector) NAN units_123_456 empty3))
  = toEigen empty3 ++ concat (map unit_toEigen units_123_456) /\
  count (fst (append_all (UV := Vec3_UnitVector) NAN units_123_456 empty3))
  = count empty3 + Z.of_nat (length units_123_456) /\
  exists u : Vec3,
    get (fst (append_all (UV := Vec3_UnitVector) NAN units_123_456 empty3))
        (count empty3 + Z.of_nat 1) = Ok u /\
    unit_toEigen u = unit_toEigen (nth 1 units_123_456 unit_default).
Proof.
  destruct (@append_all_then_get double Vec3 Vec3_UnitVector NAN empty3
                                 units_123_456)
    as (Hret & Hrows & Hcount & Hget);
    [reflexivity | exact empty3_inv | by_computation |].
  split; [exact Hret | split; [exact Hrows | split; [exact Hcount |]]].
  apply Hget. cbn. lia.
Defined.

Lemma construction_from_units_witness :
  exists s,
    NAryState_initial (UV := Vec3_UnitVector)
                      (concat (map unit_toEigen units_123_456)) = Ok s /\
    count s = Z.of_nat (length units_123_456) /\
    forall k, (k < length units_123_456)%nat ->
      exists u : Vec3,
        get s (Z.of_nat k) = Ok u /\
        unit_toEigen u = unit_toEigen (nth k units_123_456 unit_default).
Proof.
  apply (@construction_from_units double Vec3 Vec3_UnitVector units_123_456).
  - reflexivity.
  - by_computation.
Defined.

Lemma sized_units_are_NaN_witness :
  exists s (u : Vec3),
    NAryState_count (UV := Vec3_UnitVector) NAN 2 = Ok s /\
    get s 1 = Ok u /\
    unit_toEigen u = repeat NAN (Z.to_nat (unit_size (UV := Vec3_UnitVector))).
Proof.
  apply (@sized_units_are_NaN double Vec3 Vec3_UnitVector NAN 2 1);
    by_computation.
Defined.
